(** * Invoice ingestion core: attachment selection and data normalisation

    A shallow embedding of the decision logic of the repository:

    - [choose_invoice_attachment]   (scripts/e2e_from_gmail_latest.py)
    - [_append_lookback_to_query], [_ms_to_iso8601],
      [list_invoice_attachments], [download_attachment],
      [upload_pdf_to_planner]       (src/gmail_invoices.py)

    Python values are modelled by the inductive type [pyval] (the JSON-like
    values the code receives; floats are not part of this universe), a
    Python [str] by a Rocq [string] whose characters are the code points
    0..255, [bytes] by a list of bytes, a [dict] with string keys by a
    [gmap string pyval], and a raised exception by the [Raise] branch of
    the result type [except].  The process environment, the two Gmail
    helpers, the file system and the HTTP client are the fields of a
    [world]; a function that calls them returns the list of its calls
    together with its outcome.  The double arithmetic of the timestamp
    conversion is the binary64 arithmetic of [SpecFloat]. *)

From Stdlib Require Import ZArith NArith List Ascii String Bool Lia.
From Stdlib Require Import Numbers.DecimalString Floats.SpecFloat.
From Stdlib Require Init.Byte.
From stdpp Require Import base option gmap strings list.

Local Set Warnings "-register-all".
Local Open Scope string_scope.
Local Open Scope list_scope.

(* ================================================================== *)
(** * Characters and strings as Python sees them *)
(* ================================================================== *)

Module PyChar.

Definition code (c : ascii) : N := N_of_ascii c.

Definition between (lo hi : N) (c : ascii) : bool :=
  ((lo <=? code c) && (code c <=? hi))%N.

Definition is_code (n : N) (c : ascii) : bool := (code c =? n)%N.

(** [str.isspace], which [str.strip], [str.split] and the regex class
    [\s] share: TAB..CR, FS..US, SPACE, NEL and NBSP. *)
Definition is_space (c : ascii) : bool :=
  between 9 13 c || between 28 32 c || is_code 133 c || is_code 160 c.

(** The characters [int(str)] skips on both sides: the C locale's blanks
    and the two non-ASCII spaces. *)
Definition is_int_space (c : ascii) : bool :=
  between 9 13 c || is_code 32 c || is_code 133 c || is_code 160 c.

Definition is_digit (c : ascii) : bool := between 48 57 c.

(** The regex class [\w] on a [str] pattern: alphanumerics and the
    underscore. *)
Definition is_word (c : ascii) : bool :=
  is_digit c || between 65 90 c || between 97 122 c || is_code 95 c
  || is_code 170 c || between 178 179 c || is_code 181 c || between 185 186 c
  || between 188 190 c || between 192 214 c || between 216 246 c
  || between 248 255 c.

(** [str.lower] on one character. *)
Definition lower (c : ascii) : ascii :=
  if between 65 90 c || between 192 214 c || between 216 222 c
  then ascii_of_N (code c + 32) else c.

(** Equality of two characters under [re.IGNORECASE]. *)
Definition eq_ci (a b : ascii) : bool := Ascii.eqb (lower a) (lower b).

Definition digit_value (c : ascii) : Z := Z.of_N (code c) - 48.

End PyChar.

Module PyStr.

Abbreviation chars := list_ascii_of_string.
Abbreviation of_chars := string_of_list_ascii.

Section OnChars.

(** [s.lstrip(chars)] and [s.rstrip(chars)], the set [chars] given by
    its membership test [drop]. *)
Fixpoint lstrip_by (drop : ascii -> bool) (s : list ascii) : list ascii :=
  match s with
  | c :: s' => if drop c then lstrip_by drop s' else s
  | [] => []
  end.

Fixpoint rstrip_by (drop : ascii -> bool) (s : list ascii) : list ascii :=
  match s with
  | [] => []
  | c :: s' =>
      match rstrip_by drop s' with
      | [] => if drop c then [] else [c]
      | r => c :: r
      end
  end.

Definition strip_by (drop : ascii -> bool) (s : list ascii) : list ascii :=
  rstrip_by drop (lstrip_by drop s).

(** [s.split()]: the maximal runs of non-blank characters; [cur] is the
    run being read, reversed. *)
Fixpoint split_go (cur s : list ascii) : list (list ascii) :=
  match s with
  | [] => match cur with [] => [] | _ => [rev cur] end
  | c :: s' =>
      if PyChar.is_space c
      then match cur with
           | [] => split_go [] s'
           | _ => rev cur :: split_go [] s'
           end
      else split_go (c :: cur) s'
  end.

Definition split_l (s : list ascii) : list (list ascii) := split_go [] s.

Definition lower_l (s : list ascii) : list ascii := map PyChar.lower s.

Fixpoint startswith_l (s p : list ascii) {struct p} : bool :=
  match p, s with
  | [], _ => true
  | _ :: _, [] => false
  | b :: p', a :: s' => Ascii.eqb a b && startswith_l s' p'
  end.

(** [s.replace(old, new)] for a non-empty [old]: leftmost occurrences,
    not overlapping.  [skip] counts the characters of a replaced
    occurrence still to be dropped. *)
Fixpoint replace_go (old new : list ascii) (skip : nat) (s : list ascii)
  : list ascii :=
  match s with
  | [] => []
  | c :: s' =>
      match skip with
      | S n => replace_go old new n s'
      | O =>
          if startswith_l s old
          then new ++ replace_go old new (length old - 1) s'
          else c :: replace_go old new 0 s'
      end
  end.

End OnChars.

Abbreviation lstrip_l := (lstrip_by PyChar.is_space).
Abbreviation rstrip_l := (rstrip_by PyChar.is_space).
Abbreviation strip_l := (strip_by PyChar.is_space).

(** [s.strip()] *)
Definition strip (s : string) : string := of_chars (strip_l (chars s)).
(** [s.rstrip(c)] for a one-character set. *)
Definition rstrip_char (c : ascii) (s : string) : string :=
  of_chars (rstrip_by (Ascii.eqb c) (chars s)).
Definition lower (s : string) : string := of_chars (lower_l (chars s)).
Definition split (s : string) : list string :=
  of_chars <$> split_l (chars s).
Definition startswith (s p : string) : bool :=
  startswith_l (chars s) (chars p).
Definition replace (s old new : string) : string :=
  of_chars (replace_go (chars old) (chars new) 0 (chars s)).
Definition take (n : nat) (s : string) : string :=
  of_chars (firstn n (chars s)).
Definition nonempty (s : string) : bool :=
  match s with EmptyString => false | String _ _ => true end.

(** [str(n)] for an [int]. *)
Definition of_int (n : Z) : string := NilZero.string_of_int (Z.to_int n).

(** [s] occurs in [t] (Python's [s in t]). *)
Fixpoint contains_l (t s : list ascii) : bool :=
  startswith_l t s ||
  match t with [] => false | _ :: t' => contains_l t' s end.
Definition contains (t s : string) : bool := contains_l (chars t) (chars s).

End PyStr.

Infix "+++" := String.append (at level 60, right associativity).

(* ================================================================== *)
(** * Python values, truthiness and exceptions *)
(* ================================================================== *)

Inductive pyval : Type :=
| PyNone
| PyBool (b : bool)
| PyInt (n : Z)
| PyStr (s : string)
| PyList (items : list pyval)
| PyDict (d : gmap string pyval).

Abbreviation dict := (gmap string pyval).

(** [bool(v)]. *)
Definition truthy (v : pyval) : bool :=
  match v with
  | PyNone => false
  | PyBool b => b
  | PyInt n => negb (n =? 0)%Z
  | PyStr s => PyStr.nonempty s
  | PyList items => match items with [] => false | _ => true end
  | PyDict d => negb (bool_decide (d = ∅))
  end.

(** [a or b]. *)
Definition py_or (a b : pyval) : pyval := if truthy a then a else b.

(** [d.get(k)]: [None] for a missing key. *)
Definition dict_get (d : dict) (k : string) : pyval := default PyNone (d !! k).

Inductive exn_class : Set :=
| ValueError | TypeError | AttributeError | RuntimeError | TimeoutError
| OverflowError.

(** An exception: its class and, for the [raise] statements of the
    repository, its message.  Exceptions raised by the interpreter or by a
    collaborator carry the message the collaborator reports, or none. *)
Record exn : Type := Exn { exn_kind : exn_class; exn_msg : option string }.

Inductive except (A : Type) : Type :=
| Ok (a : A)
| Raise (e : exn).
Arguments Ok {A} a.
Arguments Raise {A} e.

Definition ebind {A B} (m : except A) (k : A -> except B) : except B :=
  match m with Ok a => k a | Raise e => Raise e end.

(** [try: body  except Exception as e: handler(e)]. *)
Definition try_except {A} (body : except A) (handler : exn -> except A)
  : except A :=
  match body with Ok a => Ok a | Raise e => handler e end.

Declare Scope except_scope.
Delimit Scope except_scope with except.
Notation "x <- m ;; k" := (ebind m (fun x => k))
  (at level 100, m at next level, right associativity) : except_scope.

Definition interp_raise {A} (k : exn_class) : except A := Raise (Exn k None).
Definition raise_msg {A} (k : exn_class) (msg : string) : except A :=
  Raise (Exn k (Some msg)).

(* ================================================================== *)
(** * Regular expressions ([re.compile(..., re.I)] and [Pattern.search]) *)
(* ================================================================== *)

Module Re.

Inductive regex : Type :=
| Eps
| Chr (c : ascii)            (* a literal, compared under re.I *)
| Ws                         (* \s *)
| Bnd                        (* \b *)
| Bol                        (* ^  *)
| Cat (r1 r2 : regex)
| Alt (r1 r2 : regex)
| Star (r : regex).

Fixpoint lit_l (s : list ascii) : regex :=
  match s with
  | [] => Eps
  | c :: s' => Cat (Chr c) (lit_l s')
  end.
Definition lit (s : string) : regex := lit_l (PyStr.chars s).

Definition word_opt (c : option ascii) : bool :=
  match c with Some x => PyChar.is_word x | None => false end.

(** [\b] holds between a word character and a non-word character, the
    two ends of the subject counting as non-word. *)
Definition at_boundary (prev : option ascii) (s : list ascii) : bool :=
  xorb (word_opt prev) (word_opt (head s)).

(** The iteration of [r*]: [step] matches one more [r]; an iteration
    must consume at least one character, so [fuel] = the length of the
    subject is enough. *)
Section StarLoop.
Variable step :
  (option ascii -> list ascii -> bool) -> option ascii -> list ascii -> bool.
Variable k : option ascii -> list ascii -> bool.

Fixpoint star_loop (fuel : nat) (prev : option ascii) (s : list ascii)
  : bool :=
  match fuel with
  | O => k prev s
  | S fuel' =>
      step (fun prev' s' =>
              (length s' <? length s)%nat && star_loop fuel' prev' s')
           prev s
      || k prev s
  end.
End StarLoop.

(** Backtracking matcher in continuation-passing style.  [prev] is the
    character before the current position ([None] at the start of the
    subject), [s] the rest of the subject, [k] what must match after. *)
Fixpoint rmatch (r : regex) (k : option ascii -> list ascii -> bool)
    (prev : option ascii) (s : list ascii) {struct r} : bool :=
  match r with
  | Eps => k prev s
  | Chr c =>
      match s with
      | x :: s' => PyChar.eq_ci c x && k (Some x) s'
      | [] => false
      end
  | Ws =>
      match s with
      | x :: s' => PyChar.is_space x && k (Some x) s'
      | [] => false
      end
  | Bnd => at_boundary prev s && k prev s
  | Bol => match prev with None => k prev s | Some _ => false end
  | Cat r1 r2 => rmatch r1 (rmatch r2 k) prev s
  | Alt r1 r2 => rmatch r1 k prev s || rmatch r2 k prev s
  | Star r1 => star_loop (rmatch r1) k (length s) prev s
  end.

Definition accept : option ascii -> list ascii -> bool := fun _ _ => true.

Fixpoint search_from (r : regex) (prev : option ascii) (s : list ascii)
  : bool :=
  rmatch r accept prev s ||
  match s with
  | [] => false
  | x :: s' => search_from r (Some x) s'
  end.

(** [bool(pat.search(s))]. *)
Definition search (r : regex) (s : string) : bool :=
  search_from r None (PyStr.chars s).

End Re.

(* ================================================================== *)
(** * scripts/e2e_from_gmail_latest.py: [choose_invoice_attachment] *)
(* ================================================================== *)

Module Selector.
Import Re.
Local Open Scope except_scope.

(** [commercial\s*invoice] *)
Definition pat_commercial_invoice : regex :=
  Cat (lit "commercial") (Cat (Star Ws) (lit "invoice")).
(** [\binvoice\b] *)
Definition pat_invoice : regex := Cat Bnd (Cat (lit "invoice") Bnd).
(** [proforma\s*invoice|\bproforma\b] *)
Definition pat_proforma : regex :=
  Alt (Cat (lit "proforma") (Cat (Star Ws) (lit "invoice")))
      (Cat Bnd (Cat (lit "proforma") Bnd)).
(** [^pi\b|\bpi\b] *)
Definition pat_pi : regex :=
  Alt (Cat Bol (Cat (lit "pi") Bnd)) (Cat Bnd (Cat (lit "pi") Bnd)).

Definition patterns : list regex :=
  [pat_commercial_invoice; pat_invoice; pat_proforma; pat_pi].

(** [fn = a.get("filename") or a.get("title") or ""] *)
Definition candidate_name (a : dict) : pyval :=
  py_or (py_or (dict_get a "filename") (dict_get a "title")) (PyStr "").

(** [pat.search(fn)]: a [TypeError] unless [fn] is a [str]. *)
Definition pat_search (pat : regex) (fn : pyval) : except bool :=
  match fn with
  | PyStr s => Ok (search pat s)
  | _ => interp_raise TypeError
  end.

(** The inner loop [for i, a in enumerate(atts, start=i)] for one
    pattern. *)
Fixpoint scan (pat : regex) (i : nat) (atts : list dict)
  : except (option (nat * dict)) :=
  match atts with
  | [] => Ok None
  | a :: rest =>
      hit <- pat_search pat (candidate_name a) ;;
      if hit : bool then Ok (Some (i, a)) else scan pat (S i) rest
  end.

(** The outer loop [for pat in patterns]. *)
Fixpoint try_patterns (pats : list regex) (atts : list dict)
  : except (option (nat * dict)) :=
  match pats with
  | [] => Ok None
  | pat :: pats' =>
      r <- scan pat 1 atts ;;
      match r with
      | Some hit => Ok (Some hit)
      | None => try_patterns pats' atts
      end
  end.

Definition choose_invoice_attachment (atts : list dict)
  : except (option (nat * dict)) :=
  r <- try_patterns patterns atts ;;
  match r with
  | Some hit => Ok (Some hit)
  | None =>
      match atts with
      | a :: _ => Ok (Some (1%nat, a))
      | [] => Ok None
      end
  end.



(** The name of candidate [a] is a [str]. *)
Definition named (a : dict) : Prop :=
  exists s, candidate_name a = PyStr s.


End Selector.

(* ================================================================== *)
(** * src/gmail_invoices.py: query augmentation *)
(* ================================================================== *)

Module Query.

(** [a or b] on two [str]. *)
Definition str_or (a b : string) : string :=
  if PyStr.nonempty a then a else b.

(** [any(t.startswith(prefix) for t in tokens)] *)
Definition any_startswith (prefix : string) (tokens : list string) : bool :=
  existsb (fun t => PyStr.startswith t prefix) tokens.

Definition _append_lookback_to_query (query : string) (lookback_days : Z)
  : string :=
  let q := PyStr.strip (str_or query "") in
  let tokens := PyStr.split (PyStr.lower q) in
  let has_attachment := any_startswith "has:attachment" tokens in
  let has_newer_than := any_startswith "newer_than:" tokens in
  let q :=
    if negb has_attachment
    then PyStr.strip (q +++ " has:attachment")
    else q in
  let q :=
    if truthy (PyInt lookback_days) && (0 <? lookback_days)%Z
       && negb has_newer_than
    then PyStr.strip
           (q +++ " newer_than:" +++ PyStr.of_int lookback_days +++ "d")
    else q in
  q.

End Query.

(* ================================================================== *)
(** * Built-in conversions: [int(...)], [str(...)] *)
(* ================================================================== *)

Module Builtins.
Local Open Scope except_scope.
Local Open Scope Z_scope.

(** The body of a decimal literal: digits, single underscores allowed
    between two digits.  Returns the value and the number of digits. *)
Fixpoint digits_go (acc : Z) (count : nat) (after_digit : bool)
    (s : list ascii) : option (Z * nat) :=
  match s with
  | [] => if after_digit then Some (acc, count) else None
  | c :: s' =>
      if PyChar.is_digit c
      then digits_go (10 * acc + PyChar.digit_value c) (S count) true s'
      else if PyChar.is_code 95 c && after_digit
           then digits_go acc count false s'
           else None
  end.

(** The interpreter's default limit on the digits of an [int] literal
    read from a [str]. *)
Definition int_max_str_digits : nat := 4300.

(** [int(s)] for a [str]: blanks around, an optional sign, a decimal
    literal; [ValueError] otherwise. *)
Definition int_of_str (s : string) : except Z :=
  let body := PyStr.strip_by PyChar.is_int_space (PyStr.chars s) in
  let '(negative, ds) :=
    match body with
    | "-"%char :: r => (true, r)
    | "+"%char :: r => (false, r)
    | _ => (false, body)
    end in
  match digits_go 0 0 false ds with
  | Some (n, count) =>
      if (int_max_str_digits <? count)%nat
      then interp_raise ValueError
      else Ok (if negative then - n else n)
  | None => interp_raise ValueError
  end.

(** [int(v)] *)
Definition py_int (v : pyval) : except Z :=
  match v with
  | PyInt n => Ok n
  | PyBool b => Ok (if b then 1 else 0)
  | PyStr s => int_of_str s
  | PyNone | PyList _ | PyDict _ => interp_raise TypeError
  end.

Section Str.
(** Python's [repr] of a list or a dict: a library function the
    repository only reaches through [str(...)] of a value that should
    have been a string. *)
Variable py_repr : pyval -> string.

(** [str(v)] *)
Definition py_str (v : pyval) : string :=
  match v with
  | PyStr s => s
  | PyNone => "None"
  | PyBool true => "True"
  | PyBool false => "False"
  | PyInt n => PyStr.of_int n
  | PyList _ | PyDict _ => py_repr v
  end.
End Str.

(** [v.get]: only a [dict] has the attribute. *)
Definition as_dict (v : pyval) : except dict :=
  match v with
  | PyDict d => Ok d
  | _ => interp_raise AttributeError
  end.

Definition is_none (v : pyval) : bool :=
  match v with PyNone => true | _ => false end.

Definition is_str (v : pyval) : bool :=
  match v with PyStr _ => true | _ => false end.

End Builtins.

(* ================================================================== *)
(** * Binary64 arithmetic and [datetime.fromtimestamp(..., tz=utc)] *)
(* ================================================================== *)

Module Float64.
Local Open Scope Z_scope.

Definition prec : Z := 53.
Definition emax : Z := 1024.

(** The double nearest to an integer (ties to even). *)
Definition of_Z (n : Z) : spec_float := binary_normalize prec emax n 0 false.

(** [float(n)] for a Python [int]. *)
Definition of_int (n : Z) : except spec_float :=
  match of_Z n with
  | S754_infinity _ => interp_raise OverflowError
  | f => Ok f
  end.

Definition div : spec_float -> spec_float -> spec_float := SFdiv prec emax.
Definition mul : spec_float -> spec_float -> spec_float := SFmul prec emax.

Definition signed (negative : bool) (n : Z) : Z :=
  if negative then - n else n.

(** C's [modf]: the integral part (towards zero) and the fraction, which
    is exact. *)
Definition modf (f : spec_float) : option (Z * spec_float) :=
  match f with
  | S754_zero s => Some (0, S754_zero s)
  | S754_finite s m e =>
      if 0 <=? e
      then Some (signed s (Z.pos m * 2 ^ e), S754_zero s)
      else
        let d := 2 ^ (- e) in
        Some (signed s (Z.pos m / d),
              binary_normalize prec emax (signed s (Z.pos m mod d)) e s)
  | S754_infinity _ | S754_nan => None
  end.

(** The integer nearest to a finite double, ties to even. *)
Definition round_half_even (f : spec_float) : Z :=
  match f with
  | S754_finite s m e =>
      signed s
        (if 0 <=? e then Z.pos m * 2 ^ e
         else
           let d := 2 ^ (- e) in
           let q := Z.pos m / d in
           let r := Z.pos m mod d in
           if 2 * r <? d then q
           else if d <? 2 * r then q + 1
           else if Z.even q then q else q + 1)
  | _ => 0
  end.

End Float64.

Module Datetime.
Local Open Scope except_scope.
Local Open Scope Z_scope.

Record datetime : Set := DT {
  year : Z; month : Z; day : Z;
  hour : Z; minute : Z; second : Z; microsecond : Z
}.

(** The seconds and microseconds a timestamp given as a double stands
    for: the fraction is scaled to microseconds and rounded half to
    even, a carry moving into the seconds. *)
Definition timeval_of_float (t : spec_float) : except (Z * Z) :=
  match Float64.modf t with
  | None => interp_raise ValueError
  | Some (intpart, frac) =>
      let us := Float64.round_half_even
                  (Float64.mul frac (Float64.of_Z 1000000)) in
      let '(sec, us) :=
        if 1000000 <=? us then (intpart + 1, us - 1000000)
        else if us <? 0 then (intpart - 1, us + 1000000)
        else (intpart, us) in
      if (- 2 ^ 63 <=? sec) && (sec <? 2 ^ 63)
      then Ok (sec, us)
      else interp_raise OverflowError
  end.

(** The civil date of a day number counted from 1970-01-01 in the
    proleptic Gregorian calendar. *)
Definition civil_from_days (days : Z) : Z * Z * Z :=
  let z := days + 719468 in
  let era := z / 146097 in
  let doe := z - era * 146097 in
  let yoe := (doe - doe / 1460 + doe / 36524 - doe / 146096) / 365 in
  let doy := doe - (365 * yoe + yoe / 4 - yoe / 100) in
  let mp := (5 * doy + 2) / 153 in
  let d := doy - (153 * mp + 2) / 5 + 1 in
  let m := if mp <? 10 then mp + 3 else mp - 9 in
  let y := yoe + era * 400 + (if m <=? 2 then 1 else 0) in
  (y, m, d).

(** [datetime.fromtimestamp(t, tz=timezone.utc)] for a float [t]:
    [ValueError] when the year leaves 1..9999. *)
Definition fromtimestamp_utc (t : spec_float) : except datetime :=
  tv <- timeval_of_float t ;;
  let '(sec, us) := tv in
  let days := sec / 86400 in
  let rest := sec mod 86400 in
  let '(y, m, d) := civil_from_days days in
  if (1 <=? y) && (y <=? 9999)
  then Ok (DT y m d (rest / 3600) (rest mod 3600 / 60) (rest mod 60) us)
  else interp_raise ValueError.

(** [n] written with at least [width] digits ([%0*d]), [0 <= n]. *)
Definition zero_padded (width : nat) (n : Z) : string :=
  let digits := PyStr.of_int n in
  PyStr.of_chars (repeat "0"%char (width - String.length digits))
  +++ digits.

(** The date and time of [dt.isoformat()], before the UTC offset. *)
Definition isoformat_naive (dt : datetime) : string :=
  zero_padded 4 (year dt) +++ "-" +++ zero_padded 2 (month dt) +++ "-"
  +++ zero_padded 2 (day dt) +++ "T" +++ zero_padded 2 (hour dt) +++ ":"
  +++ zero_padded 2 (minute dt) +++ ":" +++ zero_padded 2 (second dt)
  +++ (if microsecond dt =? 0 then ""
       else "." +++ zero_padded 6 (microsecond dt)).

(** [dt.isoformat()] for a [datetime] whose [tzinfo] is UTC. *)
Definition isoformat (dt : datetime) : string :=
  isoformat_naive dt +++ "+00:00".

End Datetime.

(* ================================================================== *)
(** * The collaborators and the effects of a call *)
(* ================================================================== *)

Abbreviation bytes := (list Byte.byte).

(** A [requests.Response] as far as the adapter reads it.  [resp_json] is
    [None] for an object without a [json] attribute, else the outcome of
    calling it. *)
Record response : Type := Response {
  status_code : Z;
  text : option string;
  resp_json : option (except pyval)
}.

(** What [requests.post] does: [requests.Timeout], another exception (with
    its [str]), or a response. *)
Inductive post_outcome : Type :=
| PostTimeout
| PostFailure (msg : string)
| PostResponse (resp : response).

(** The environment of a call: the process environment, the two Gmail
    helpers of [agents_demo.main], the file system and the HTTP client. *)
Record world : Type := World {
  getenv : string -> option string;
  gmail_list_messages : string -> string -> except (list pyval);
  gmail_download : string -> string -> pyval -> except string;
  read_file : string -> except bytes;
  requests_post : string -> gmap string string -> bytes -> post_outcome
}.

(** The calls to the outside a function makes, in order. *)
Inductive event : Type :=
| EvGetenv (name : string)
| EvListMessages (token query : string) (max_results : Z)
| EvDownload (message_id attachment_id : string) (filename : pyval)
| EvReadFile (path : string)
| EvRemove (path : string)
| EvPost (url : string) (headers : gmap string string)
         (file_name : string) (body : bytes) (mime : string) (timeout : Z).

(** A computation with effects: the events it performed and its outcome. *)
Definition io (A : Type) : Type := (list event * except A)%type.

Definition io_lift {A} (m : except A) : io A := ([], m).
Definition io_raise {A} (k : exn_class) (msg : string) : io A :=
  ([], raise_msg k msg).
Definition perform {A} (ev : event) (outcome : except A) : io A :=
  ([ev], outcome).
Definition io_bind {A B} (m : io A) (k : A -> io B) : io B :=
  match m with
  | (log, Ok a) => let '(log', r) := k a in (log ++ log', r)
  | (log, Raise e) => (log, Raise e)
  end.

Declare Scope io_scope.
Delimit Scope io_scope with io.
Notation "x <- m ;; k" := (io_bind m (fun x => k))
  (at level 100, m at next level, right associativity) : io_scope.

(* ================================================================== *)
(** * src/gmail_invoices.py *)
(* ================================================================== *)

Module GmailInvoices.
Import Builtins.

(** [os.getenv(name)], a [RuntimeError] when unset or empty. *)
Definition _require_env (w : world) (name : string) : io string :=
  perform (EvGetenv name)
    match getenv w name with
    | Some val =>
        if PyStr.nonempty val then Ok val
        else raise_msg RuntimeError
               ("Missing required environment variable: " +++ name)
    | None =>
        raise_msg RuntimeError
          ("Missing required environment variable: " +++ name)
    end.

(** [os.getenv(name) or ""] *)
Definition getenv_or_empty (w : world) (name : string) : io string :=
  perform (EvGetenv name) (Ok (default "" (getenv w name))).

(** ** [_ms_to_iso8601] *)

(** The body of the [try]. *)
Definition ms_to_iso8601_try (ms : pyval) : except string :=
  (ms_int <- py_int ms ;;
   ms_float <- Float64.of_int ms_int ;;
   dt <- Datetime.fromtimestamp_utc
           (Float64.div ms_float (Float64.of_Z 1000)) ;;
   Ok (PyStr.replace (Datetime.isoformat dt) "+00:00" "Z"))%except.

Definition _ms_to_iso8601 (ms : pyval) : string :=
  match ms_to_iso8601_try ms with
  | Ok s => s
  | Raise _ => ""
  end.

Section WithRepr.
Variable py_repr : pyval -> string.
Abbreviation str := (py_str py_repr).

(** ** [list_invoice_attachments] *)

(** [int(a.get("size") or 0)] *)
Definition size_bytes_of (a : dict) : except Z :=
  py_int (py_or (dict_get a "size") (PyInt 0)).

(** The dictionary appended for one attachment [a]. *)
Definition attachment_ref (mid subject received_at : string) (a : pyval)
  : except dict :=
  (a <- as_dict a ;;
   let attachment_id := str (py_or (dict_get a "attachmentId") (PyStr "")) in
   let filename := str (py_or (dict_get a "filename") (PyStr "")) in
   let mime_type := str (py_or (dict_get a "mimeType") (PyStr "")) in
   size_bytes <- size_bytes_of a ;;
   Ok ({[ "message_id" := PyStr mid;
          "attachment_id" := PyStr attachment_id;
          "filename" := PyStr filename;
          "mime_type" := PyStr mime_type;
          "size_bytes" := PyInt size_bytes;
          "thread_id" := PyStr "";
          "subject" := PyStr subject;
          "from_address" := PyStr "";
          "received_at" := PyStr received_at ]} : dict))%except.

(** What [for a in v] visits.  A non-empty [str] or [dict] yields
    strings, which have no [get]: the loop body raises on the first. *)
Definition iterate_attachments (v : pyval) : except (list pyval) :=
  match v with
  | PyList items => Ok items
  | PyStr _ | PyDict _ =>
      if truthy v then interp_raise AttributeError else Ok []
  | PyNone | PyBool _ | PyInt _ => interp_raise TypeError
  end.

Fixpoint map_except {A B} (f : A -> except B) (l : list A)
  : except (list B) :=
  match l with
  | [] => Ok []
  | x :: l' =>
      (y <- f x ;; ys <- map_except f l' ;; Ok (y :: ys))%except
  end.

(** The references one message [m] contributes. *)
Definition message_refs (m : pyval) : except (list dict) :=
  (m <- as_dict m ;;
   let mid := str (py_or (dict_get m "messageId") (PyStr "")) in
   let subject := str (py_or (dict_get m "subject") (PyStr "")) in
   let received_at := _ms_to_iso8601 (dict_get m "internalDate") in
   atts <- iterate_attachments
             (py_or (dict_get m "attachments") (PyList [])) ;;
   map_except (attachment_ref mid subject received_at) atts)%except.

Definition list_invoice_attachments (w : world) (query : string)
    (lookback_days : Z) : io (list dict) :=
  (token <- _require_env w "GMAIL_AUTHORIZATION" ;;
   let q := Query._append_lookback_to_query query lookback_days in
   msgs <- perform (EvListMessages token q 50)
             (gmail_list_messages w token q) ;;
   io_lift (refs <- map_except message_refs msgs ;;
            Ok (concat refs))%except)%io.

(** ** [download_attachment] *)

Definition exn_str (e : exn) : string := default "" (exn_msg e).

Definition download_attachment (w : world) (ref : pyval) : io bytes :=
  match ref with
  | PyDict ref =>
      let message_id :=
        py_or (dict_get ref "message_id") (dict_get ref "messageId") in
      let attachment_id :=
        py_or (dict_get ref "attachment_id") (dict_get ref "attachmentId") in
      if negb (truthy message_id) || negb (truthy attachment_id)
      then io_raise ValueError
             "AttachmentRef must include 'message_id' and 'attachment_id'"
      else
        let preferred_name :=
          py_or (dict_get ref "filename")
                (PyStr ("gmail_" +++ str attachment_id)) in
        (path <- perform
                   (EvDownload (str message_id) (str attachment_id)
                               preferred_name)
                   (gmail_download w (str message_id) (str attachment_id)
                                   preferred_name) ;;
         (* try: read / except: wrap / finally: remove *)
         let '(log, outcome) :=
           (perform (EvReadFile path) (read_file w path) : io bytes) in
         (log ++ [EvRemove path],
          match outcome with
          | Ok data => Ok data
          | Raise e =>
              raise_msg RuntimeError
                ("Failed to read downloaded attachment from " +++ path
                 +++ ": " +++ exn_str e)
          end))%io
  | _ => io_raise ValueError "ref must be a dict AttachmentRef"
  end.

End WithRepr.

(** ** [upload_pdf_to_planner] *)

Definition pdf_magic : bytes := [Byte.x25; Byte.x50; Byte.x44; Byte.x46].

Fixpoint bytes_startswith (s p : bytes) {struct p} : bool :=
  match p, s with
  | [], _ => true
  | _ :: _, [] => false
  | b :: p', a :: s' => Byte.eqb a b && bytes_startswith s' p'
  end.

(** The "light PDF sanity check": the [raise] sits inside the [try]
    whose handler is [except Exception: pass]. *)
Definition pdf_sanity_check (pdf_bytes : bytes) : except unit :=
  try_except
    (if negb (bytes_startswith (firstn 4 pdf_bytes) pdf_magic)
     then raise_msg ValueError "Only application/pdf content can be uploaded"
     else Ok tt)
    (fun _ => Ok tt).

(** [resp.json() if hasattr(resp, "json") else {}], [{}] on any
    exception. *)
Definition response_data (resp : response) : pyval :=
  match resp_json resp with
  | Some (Ok data) => data
  | Some (Raise _) | None => PyDict ∅
  end.

(** [x = data.get(key) or []; if isinstance(x, str): x = [x]] *)
Definition string_or_list (data : dict) (key : string) : pyval :=
  let x := py_or (dict_get data key) (PyList []) in
  if is_str x then PyList [x] else x.

(** The adaptation of the decoded body to an InsertReport. *)
Definition insert_report (data : pyval) (source_message_id : option string)
  : except dict :=
  (data <- as_dict data ;;
   let created := dict_get data "created_order_ids" in
   let created := if is_none created then dict_get data "created"
                  else created in
   let created := if is_none created then PyList [] else created in
   let warnings := string_or_list data "warnings" in
   let errors := string_or_list data "errors" in
   let notes :=
     py_or (py_or (dict_get data "notes") (dict_get data "detail"))
           (PyStr "") in
   Ok ({[ "created_order_ids" := created;
          "warnings" := warnings;
          "errors" := errors;
          "source_message_id" :=
            PyStr (Query.str_or (default "" source_message_id) "");
          "notes" := notes ]} : dict))%except.

(** [f"{base}/orders/pending/upload-pdf"], [base] the configured value
    with its trailing slashes removed. *)
Definition upload_url (base : string) : string :=
  PyStr.rstrip_char "/" base +++ "/orders/pending/upload-pdf".

(** The request headers: a bearer credential when one is configured. *)
Definition auth_headers (api_key : string) : gmap string string :=
  if PyStr.nonempty api_key
  then {[ "Authorization" := "Bearer " +++ api_key ]}
  else ∅.

(** The message of the error raised for a response outside 200..299. *)
Definition http_failure_message (resp : response) : string :=
  let text := PyStr.take 200 (Query.str_or (default "" (text resp)) "") in
  "Planner upload failed: HTTP " +++ PyStr.of_int (status_code resp)
  +++ ": " +++ text.

Definition upload_pdf_to_planner (w : world) (pdf_bytes : bytes)
    (source_message_id : option string) : io dict :=
  if (length pdf_bytes =? 0)%nat
  then io_raise ValueError "pdf_bytes must be non-empty bytes"
  else
    (_ <- io_lift (pdf_sanity_check pdf_bytes) ;;
     base <- _require_env w "PLANNER_API_BASE" ;;
     api_key <- getenv_or_empty w "PLANNER_API_KEY" ;;
     let url := upload_url base in
     let headers := auth_headers api_key in
     resp <- perform
               (EvPost url headers "invoice.pdf" pdf_bytes
                       "application/pdf" 30)
               match requests_post w url headers pdf_bytes with
               | PostTimeout =>
                   raise_msg TimeoutError
                     "Upload to planning app timed out after 30s"
               | PostFailure msg =>
                   raise_msg RuntimeError
                     ("Failed to upload PDF to planner: " +++ msg)
               | PostResponse resp => Ok resp
               end ;;
     if (status_code resp <? 200)%Z || (300 <=? status_code resp)%Z
     then io_raise RuntimeError (http_failure_message resp)
     else io_lift (insert_report (response_data resp) source_message_id))%io.

End GmailInvoices.

(* ================================================================== *)
(** * Notions used to state the properties *)
(* ================================================================== *)

Module Notions.
Import GmailInvoices.
Local Open Scope Z_scope.

(** The code points 0..255 that satisfy [f]. *)
Definition codes_where (f : ascii -> bool) : list N :=
  map PyChar.code (List.filter f (map ascii_of_nat (seq 0 256))).

(** The character before the position reached after reading [x]. *)
Definition last_seen (prev : option ascii) (x : list ascii) : option ascii :=
  fold_left (fun _ c => Some c) x prev.

(** Blank characters, and texts without any. *)
Definition blank (c : ascii) : Prop := PyChar.is_space c = true.
Definition solid (s : list ascii) : Prop :=
  Forall (fun c => PyChar.is_space c = false) s.

(** The tokens the function inspects: [q.lower().split()]. *)
Definition tokens (s : string) : list string := PyStr.split (PyStr.lower s).

(** The token appended for a lookback of [d] days. *)
Definition newer_than_token (d : Z) : string :=
  "newer_than:" +++ PyStr.of_int d +++ "d".


(** Neither spelling of an identifier is a key of the reference. *)
Definition identifier_absent (ref : dict) (snake camel : string) : Prop :=
  ref !! snake = None /\ ref !! camel = None.

Definition missing_identifiers : exn :=
  Exn ValueError
      (Some "AttachmentRef must include 'message_id' and 'attachment_id'").



(** The three effects of an upload that reaches the planner. *)
Definition upload_events (w : world) (pdf_bytes : bytes) (base : string)
  : list event :=
  let api_key := default "" (getenv w "PLANNER_API_KEY") in
  [ EvGetenv "PLANNER_API_BASE"; EvGetenv "PLANNER_API_KEY";
    EvPost (upload_url base) (auth_headers api_key) "invoice.pdf"
           pdf_bytes "application/pdf" 30 ].

(** The planner answered the request of this upload with [resp]. *)
Definition planner_answers (w : world) (pdf_bytes : bytes) (base : string)
    (resp : response) : Prop :=
  pdf_bytes <> []
  /\ getenv w "PLANNER_API_BASE" = Some base /\ base <> ""
  /\ requests_post w (upload_url base)
       (auth_headers (default "" (getenv w "PLANNER_API_KEY"))) pdf_bytes
     = PostResponse resp.

End Notions.

(* ================================================================== *)
(** * Sample inputs used by the scenarios below *)
(* ================================================================== *)

Module Samples.

Definition no_repr : pyval -> string := fun _ => "".

Definition ascii_bytes (s : string) : bytes :=
  map byte_of_ascii (PyStr.chars s).

(** A planner that answers every upload with [resp]; the environment of
    the repository's tests. *)
Definition planner_world (resp : response) : world :=
  {| getenv := fun name =>
       if String.eqb name "PLANNER_API_BASE" then Some "http://planner.local"
       else if String.eqb name "PLANNER_API_KEY" then Some "testkey"
       else if String.eqb name "GMAIL_AUTHORIZATION" then Some "test-token"
       else None;
     gmail_list_messages := fun _ _ => Ok [];
     gmail_download := fun _ _ _ => Ok "/tmp/test.pdf";
     read_file := fun _ => Ok (ascii_bytes "%PDF-1.7");
     requests_post := fun _ _ _ => PostResponse resp |}.

(** A Gmail helper that lists [msgs]. *)
Definition gmail_world (msgs : list pyval) : world :=
  {| getenv := fun name =>
       if String.eqb name "GMAIL_AUTHORIZATION" then Some "test-token"
       else None;
     gmail_list_messages := fun _ _ => Ok msgs;
     gmail_download := fun _ _ _ => Ok "/tmp/test.pdf";
     read_file := fun _ => Ok (ascii_bytes "%PDF-1.7");
     requests_post := fun _ _ _ => PostTimeout |}.

Definition ok_empty_json : response :=
  {| status_code := 200; text := Some "{}";
     resp_json := Some (Ok (PyDict ∅)) |}.

Definition bad_request : response :=
  {| status_code := 400; text := Some "Bad request: invalid PDF";
     resp_json := Some (Ok (PyDict {[ "error" := PyStr "bad" ]})) |}.

(** The upload scenario: a single string becomes a one-element
    sequence. *)
Definition minor_warning : response :=
  {| status_code := 200; text := Some "";
     resp_json :=
       Some (Ok (PyDict {[ "created_order_ids" := PyList [PyStr "123"];
                           "warnings" := PyStr "minor";
                           "errors" := PyList [];
                           "notes" := PyStr "ok" ]})) |}.

(** A planner whose only warning is the empty string. *)
Definition empty_warning : response :=
  {| status_code := 200; text := Some "";
     resp_json := Some (Ok (PyDict {[ "warnings" := PyStr "" ]})) |}.

(** The message of the repository's listing test. *)
Definition message_m1 : pyval :=
  PyDict {[ "messageId" := PyStr "m1";
            "subject" := PyStr "Invoice ABC";
            "internalDate" := PyStr "1725478294000";
            "attachments" :=
              PyList [ PyDict {[ "attachmentId" := PyStr "a1";
                                 "filename" := PyStr "inv.pdf";
                                 "mimeType" := PyStr "application/pdf";
                                 "size" := PyInt 1234 ]};
                       PyDict {[ "attachmentId" := PyStr "a2";
                                 "filename" := PyStr "image.png";
                                 "mimeType" := PyStr "image/png";
                                 "size" := PyInt 999 ]} ] ]}.

End Samples.

(* ================================================================== *)
(** * Further notions: shapes of names, queries and listings *)
(* ================================================================== *)

Module Shapes.
Import Re Builtins Query GmailInvoices Notions.










(** The nine keys of an attachment reference. *)
Definition ref_keys : gset string :=
  {[ "message_id"; "attachment_id"; "filename"; "mime_type"; "size_bytes";
     "thread_id"; "subject"; "from_address"; "received_at" ]}.

(** A reference as the normalizer builds it: the nine keys, strings
    everywhere but for the integer size, the two fields the helper does not
    expose empty. *)
Definition ref_shaped (r : dict) : Prop :=
  dom r = ref_keys
  /\ r !! "thread_id" = Some (PyStr "")
  /\ r !! "from_address" = Some (PyStr "")
  /\ (forall k, k ∈ ref_keys -> k <> "size_bytes" ->
        exists s, r !! k = Some (PyStr s))
  /\ exists n, r !! "size_bytes" = Some (PyInt n).

(** The five keys of an insert report. *)
Definition report_keys : gset string :=
  {[ "created_order_ids"; "warnings"; "errors"; "source_message_id";
     "notes" ]}.

(** The first of the values that is not [None], [PyList []] when all are. *)
Definition first_not_none (vs : list pyval) : pyval :=
  default (PyList []) (head (List.filter (fun v => negb (is_none v)) vs)).

(** The first of the values that is truthy, the empty string when none
    is. *)
Definition first_truthy (vs : list pyval) : pyval :=
  default (PyStr "") (head (List.filter truthy vs)).

(** What the function appends for a query with tokens [toks]: the
    attachment filter unless a token already starts with it ... *)
Definition attachment_part (toks : list string) : string :=
  if any_startswith "has:attachment" toks then "" else "has:attachment".

(** ... and the recency filter for a positive lookback, unless a token
    already starts with it. *)
Definition lookback_part (toks : list string) (d : Z) : string :=
  if (0 <? d)%Z && negb (any_startswith "newer_than:" toks)
  then newer_than_token d else "".

(** The token a part contributes: none when it is empty. *)
Definition part_tokens (part : string) : list string :=
  match part with EmptyString => [] | _ => [part] end.

(** The error of [_require_env] for the variable [name]. *)
Definition missing_variable (name : string) : exn :=
  Exn RuntimeError (Some ("Missing required environment variable: " +++ name)).

(** The variable is unset or empty. *)
Definition unset (w : world) (name : string) : Prop :=
  getenv w name = None \/ getenv w name = Some "".

(** The variable is set to the non-empty [value]. *)
Definition set_to (w : world) (name value : string) : Prop :=
  getenv w name = Some value /\ value <> "".



(** A message without attachments: the key is missing or its value is
    falsy. *)
Definition without_attachments (m : pyval) : Prop :=
  exists d, m = PyDict d /\ truthy (dict_get d "attachments") = false.

(** A world without environment, helpers that fail, no network. *)
Definition bare_world : world :=
  {| getenv := fun _ => None;
     gmail_list_messages := fun _ _ => Raise (Exn RuntimeError None);
     gmail_download := fun _ _ _ => Raise (Exn RuntimeError None);
     read_file := fun _ => Raise (Exn RuntimeError None);
     requests_post := fun _ _ _ => PostTimeout |}.

(** The two references the listing builds for [Samples.message_m1]. *)
Definition refs_m1 : list dict :=
  [ {[ "message_id" := PyStr "m1";
       "attachment_id" := PyStr "a1";
       "filename" := PyStr "inv.pdf";
       "mime_type" := PyStr "application/pdf";
       "size_bytes" := PyInt 1234;
       "thread_id" := PyStr "";
       "subject" := PyStr "Invoice ABC";
       "from_address" := PyStr "";
       "received_at" := PyStr "2024-09-04T19:31:34Z" ]};
    {[ "message_id" := PyStr "m1";
       "attachment_id" := PyStr "a2";
       "filename" := PyStr "image.png";
       "mime_type" := PyStr "image/png";
       "size_bytes" := PyInt 999;
       "thread_id" := PyStr "";
       "subject" := PyStr "Invoice ABC";
       "from_address" := PyStr "";
       "received_at" := PyStr "2024-09-04T19:31:34Z" ]} ].


(** The identifiers [download_attachment] reads from a reference, and the
    file name it proposes to the helper. *)
Definition ref_message_id (ref : dict) : pyval :=
  py_or (dict_get ref "message_id") (dict_get ref "messageId").

Definition ref_attachment_id (ref : dict) : pyval :=
  py_or (dict_get ref "attachment_id") (dict_get ref "attachmentId").

Definition not_a_dict : exn :=
  Exn ValueError (Some "ref must be a dict AttachmentRef").

(** The error that wraps a failed read of [path]. *)
Definition read_failure (path : string) (e : exn) : exn :=
  Exn RuntimeError
      (Some ("Failed to read downloaded attachment from " +++ path +++ ": "
             +++ exn_str e)).

(** A world whose download helper saves to [path] and whose file system
    answers a read with [outcome]. *)
Definition download_world (path : string) (outcome : except bytes) : world :=
  {| getenv := fun _ => None;
     gmail_list_messages := fun _ _ => Ok [];
     gmail_download := fun _ _ _ => Ok path;
     read_file := fun _ => outcome;
     requests_post := fun _ _ _ => PostTimeout |}.

(** The errors [upload_pdf_to_planner] raises before it has a response. *)
Definition empty_payload : exn :=
  Exn ValueError (Some "pdf_bytes must be non-empty bytes").

Definition upload_timed_out : exn :=
  Exn TimeoutError (Some "Upload to planning app timed out after 30s").

Definition upload_not_sent (cause : string) : exn :=
  Exn RuntimeError (Some ("Failed to upload PDF to planner: " +++ cause)).

(** The report of a response without a usable body. *)
Definition empty_report (source_message_id : option string) : dict :=
  {[ "created_order_ids" := PyList [];
     "warnings" := PyList [];
     "errors" := PyList [];
     "source_message_id" := PyStr (default "" source_message_id);
     "notes" := PyStr "" ]}.

(** The status is one of 200..299. *)
Definition succeeded (resp : response) : Prop :=
  (200 <= status_code resp < 300)%Z.


Definition no_json : response :=
  {| status_code := 204; text := None; resp_json := None |}.

Definition list_json : response :=
  {| status_code := 200; text := Some "[1]";
     resp_json := Some (Ok (PyList [PyInt 1])) |}.

Definition created_detail : response :=
  {| status_code := 201; text := Some "";
     resp_json :=
       Some (Ok (PyDict {[ "created_order_ids" := PyNone;
                           "created" := PyList [PyInt 7];
                           "notes" := PyStr "";
                           "detail" := PyStr "queued" ]})) |}.

End Shapes.

(* ================================================================== *)
(** * Properties *)
(* ================================================================== *)

Module BuiltinSamples.
Import Builtins Notions.
Local Open Scope Z_scope.

(** The blanks of [str.isspace] among the code points 0..255. *)
Example is_space_codes :
  codes_where PyChar.is_space
  = [9; 10; 11; 12; 13; 28; 29; 30; 31; 32; 133; 160]%N.
Proof. vm_compute. reflexivity. Qed.

(** The word characters above the ASCII letters, digits and underscore. *)
Example is_word_codes_latin1 :
  List.filter (fun n => 128 <=? n)%N (codes_where PyChar.is_word)
  = ([170; 178; 179; 181; 185; 186; 188; 189; 190]
     ++ map N.of_nat (seq 192 23) ++ map N.of_nat (seq 216 31)
     ++ map N.of_nat (seq 248 8))%N.
Proof. vm_compute. reflexivity. Qed.

(** The characters [str.lower] changes. *)
Example lower_codes :
  codes_where (fun c => negb (Ascii.eqb (PyChar.lower c) c))
  = (map N.of_nat (seq 65 26) ++ map N.of_nat (seq 192 23)
     ++ map N.of_nat (seq 216 7))%N.
Proof. vm_compute. reflexivity. Qed.

Example py_int_samples :
  map py_int
      [PyStr " 12 "; PyStr "+12"; PyStr "-12"; PyStr "1_000"; PyStr "0012";
       PyStr "-0"; PyBool true; PyInt 7]
  = map Ok [12; 12; -12; 1000; 12; 0; 1; 7]
  /\ map py_int
         [PyStr "_1"; PyStr "1__0"; PyStr "1_"; PyStr ""; PyStr " ";
          PyStr "+"; PyStr "12.0"; PyStr "+ 1"; PyStr "--1"; PyStr "abc"]
     = repeat (Raise (Exn ValueError None)) 10
  /\ map py_int [PyNone; PyList []; PyDict ∅]
     = repeat (Raise (Exn TypeError None)) 3.
Proof. repeat split; vm_compute; reflexivity. Qed.

Example strip_split_samples :
  PyStr.strip "  in:inbox  filename:pdf " = "in:inbox  filename:pdf"
  /\ PyStr.split "  in:inbox  filename:pdf " = ["in:inbox"; "filename:pdf"]
  /\ PyStr.replace "a+00:00b+00:00+00:" "+00:00" "Z" = "aZbZ+00:"
  /\ PyStr.of_int (-5) = "-5" /\ PyStr.of_int 0 = "0".
Proof. repeat split; vm_compute; reflexivity. Qed.

Example append_lookback_samples :
  Query._append_lookback_to_query "in:inbox" 14
  = "in:inbox has:attachment newer_than:14d"
  /\ Query._append_lookback_to_query "  HAS:ATTACHMENT  newer_than:3d " 14
     = "HAS:ATTACHMENT  newer_than:3d"
  /\ Query._append_lookback_to_query "" 0 = "has:attachment"
  /\ Query._append_lookback_to_query "x" (-1) = "x has:attachment".
Proof. repeat split; vm_compute; reflexivity. Qed.

End BuiltinSamples.

Module SelectorFacts.
Import Re Selector Notions.

(** ** The matcher on literals, blanks and searches *)


Lemma last_seen_app prev x y :
  last_seen prev (x ++ y) = last_seen (last_seen prev x) y.
Proof. apply fold_left_app. Qed.









(** ** The two loops *)





Lemma scan_total pat : forall atts i,
  Forall named atts ->
  exists r, scan pat i atts = Ok r /\
    forall j a, r = Some (j, a) ->
      (i <= j < i + length atts)%nat /\ atts !! (j - i)%nat = Some a.
Proof.
  induction atts as [|b atts IH]; intros i H.
  - exists None. split; [done|]. intros; discriminate.
  - inversion H as [|? ? [s Hb] H']; subst. cbn [scan]. rewrite Hb. cbn.
    destruct (search pat s).
    + eexists; split; [reflexivity|]. intros j a [= <- <-].
      rewrite Nat.sub_diag. cbn. split; [lia|done].
    + destruct (IH (S i) H') as (r & Hr & Hspec). exists r. split; [done|].
      intros j a Hja. destruct (Hspec j a Hja) as [Hrange Hlook].
      cbn [length]. split; [lia|].
      replace (j - i)%nat with (S (j - S i)) by lia. exact Hlook.
Qed.

Lemma try_patterns_total : forall pats atts,
  Forall named atts ->
  exists r, try_patterns pats atts = Ok r /\
    forall j a, r = Some (j, a) ->
      (1 <= j <= length atts)%nat /\ atts !! (j - 1)%nat = Some a.
Proof.
  induction pats as [|q pats IH]; intros atts H.
  - exists None. split; [done|]. intros; discriminate.
  - cbn [try_patterns].
    destruct (scan_total q atts 1 H) as (r & Hr & Hspec). rewrite Hr. cbn.
    destruct r as [[j a]|].
    + eexists; split; [reflexivity|]. intros j' a' [= <- <-].
      destruct (Hspec j a eq_refl). split; [lia|done].
    + apply IH, H.
Qed.




(** C10 (as amended).  For every list of dictionary candidates whose
    names are strings, candidates without a "filename" and a "title"
    included (their name is the empty string), the selector does not
    raise; whenever it returns a pair (i, a), 1 <= i <= the length of the
    input and a is the i-th element; it returns no selection only for the
    empty input. *)
Theorem choose_total_in_range (atts : list dict) :
  Forall named atts ->
  exists r, choose_invoice_attachment atts = Ok r
    /\ (r = None <-> atts = [])
    /\ (forall i a, r = Some (i, a) ->
          (1 <= i <= length atts)%nat /\ atts !! (i - 1)%nat = Some a).
Proof.
  intros H. unfold choose_invoice_attachment.
  destruct (try_patterns_total patterns atts H) as (r & Hr & Hspec).
  rewrite Hr. cbn. destruct r as [[j b]|].
  - eexists; split; [reflexivity|]. split.
    + split; [discriminate|]. intros ->.
      destruct (Hspec j b eq_refl) as [Hj _]. cbn in Hj. lia.
    + intros i a [= <- <-]. now apply Hspec.
  - destruct atts as [|a0 atts].
    + exists None. repeat split; try done.
    + exists (Some (1%nat, a0)). split; [done|]. split.
      * split; discriminate.
      * intros i a [= <- <-]. cbn. split; [lia|done].
Qed.

(** A candidate without "filename" and "title" has the empty name. *)
Lemma candidate_name_missing (a : dict) :
  a !! "filename" = None -> a !! "title" = None ->
  candidate_name a = PyStr "".
Proof. intros Hf Ht. unfold candidate_name, dict_get. now rewrite Hf, Ht. Qed.

End SelectorFacts.

Module StrFacts.
Import PyStr Notions.

Lemma chars_app (s t : string) : chars (s +++ t) = chars s ++ chars t.
Proof. induction s as [|c s IH]; simpl; [reflexivity|f_equal; exact IH]. Qed.

Lemma is_space_lower c : PyChar.is_space (PyChar.lower c) = PyChar.is_space c.
Proof. destruct c as [[] [] [] [] [] [] [] []]; reflexivity. Qed.

(** *** Stripping *)

Lemma lstrip_l_solid_head c s :
  PyChar.is_space c = false -> lstrip_l (c :: s) = c :: s.
Proof. intros H. cbn. now rewrite H. Qed.

Lemma rstrip_l_solid_head c s :
  PyChar.is_space c = false -> exists r, rstrip_l (c :: s) = c :: r.
Proof.
  intros H. cbn. destruct (rstrip_l s); rewrite ?H; eauto.
Qed.

Lemma rstrip_l_idem s : rstrip_l (rstrip_l s) = rstrip_l s.
Proof.
  induction s as [|c s IH]; [done|]. cbn.
  destruct (rstrip_l s) as [|d r] eqn:E.
  - destruct (PyChar.is_space c) eqn:Ec; [done|]. cbn. now rewrite Ec.
  - cbn [rstrip_l] in IH |- *. rewrite IH. reflexivity.
Qed.

Lemma lstrip_l_head s :
  lstrip_l s = []
  \/ exists c t, lstrip_l s = c :: t /\ PyChar.is_space c = false.
Proof.
  induction s as [|c s IH]; [now left|]. cbn.
  destruct (PyChar.is_space c) eqn:E; [exact IH|]. right; eauto.
Qed.

Lemma strip_l_idem s : strip_l (strip_l s) = strip_l s.
Proof.
  unfold strip_l. destruct (lstrip_l_head s) as [->|(c & t & -> & Hc)]; [done|].
  destruct (rstrip_l_solid_head c t Hc) as [r Hr]. rewrite Hr.
  rewrite lstrip_l_solid_head by exact Hc. rewrite <- Hr.
  apply rstrip_l_idem.
Qed.

Lemma lstrip_l_lower s : lstrip_l (lower_l s) = lower_l (lstrip_l s).
Proof.
  induction s as [|c s IH]; [done|]. cbn. rewrite is_space_lower.
  destruct (PyChar.is_space c); [exact IH|done].
Qed.

Lemma rstrip_l_lower s : rstrip_l (lower_l s) = lower_l (rstrip_l s).
Proof.
  induction s as [|c s IH]; [done|]. cbn. unfold lower_l in IH. rewrite IH.
  destruct (rstrip_l s); cbn; [|done].
  rewrite is_space_lower. now destruct (PyChar.is_space c).
Qed.

Lemma strip_l_lower s : strip_l (lower_l s) = lower_l (strip_l s).
Proof. unfold strip_l. now rewrite lstrip_l_lower, rstrip_l_lower. Qed.

(** *** Splitting *)

Lemma split_go_lstrip s : split_go [] (lstrip_l s) = split_go [] s.
Proof.
  induction s as [|c s IH]; [done|]. cbn.
  destruct (PyChar.is_space c) eqn:E; [exact IH|]. cbn. now rewrite E.
Qed.

Lemma split_go_rstrip s : forall cur,
  split_go cur (rstrip_l s) = split_go cur s.
Proof.
  induction s as [|c s IH]; intros cur; [done|]. cbn [rstrip_l].
  destruct (rstrip_l s) as [|d r] eqn:E.
  - destruct (PyChar.is_space c) eqn:Ec.
    + cbn. rewrite Ec, <- (IH []). cbn. now destruct cur.
    + cbn. rewrite Ec. rewrite <- IH. reflexivity.
  - rewrite <- E in IH |- *. cbn [split_go].
    destruct (PyChar.is_space c); [|apply IH].
    rewrite IH. reflexivity.
Qed.

Lemma split_l_strip s : split_l (strip_l s) = split_l s.
Proof.
  unfold split_l, strip_l. now rewrite split_go_rstrip, split_go_lstrip.
Qed.

Lemma split_go_blank sp t : blank sp -> forall s cur,
  split_go cur (s ++ sp :: t) = split_go cur s ++ split_go [] t.
Proof.
  intros Hsp. induction s as [|c s IH]; intros cur.
  - cbn. rewrite Hsp. now destruct cur.
  - cbn. destruct (PyChar.is_space c); [|apply IH].
    destruct cur; rewrite IH; reflexivity.
Qed.

Lemma split_go_solid : forall t cur,
  solid t -> cur ++ t <> [] -> split_go cur t = [rev cur ++ t].
Proof.
  induction t as [|c t IH]; intros cur Ht Hne.
  - rewrite app_nil_r in *. cbn. destruct cur; [done|reflexivity].
  - inversion Ht as [|? ? Hc Ht']; subst. cbn. rewrite Hc.
    rewrite IH; [|assumption|done]. cbn. now rewrite <- app_assoc.
Qed.

(** Appending a blank and one more word adds exactly that word. *)
Lemma split_l_add_word s sp w :
  blank sp -> solid w -> w <> [] ->
  split_l (s ++ sp :: w) = split_l s ++ [w].
Proof.
  intros Hsp Hw Hne. unfold split_l. rewrite split_go_blank by assumption.
  rewrite (split_go_solid w []); [reflexivity|assumption|exact Hne].
Qed.

(** *** Decimal numerals are solid *)

Lemma uint_solid u : solid (chars (NilEmpty.string_of_uint u)).
Proof. induction u; cbn; constructor; done. Qed.

Lemma of_int_solid n : solid (chars (of_int n)).
Proof.
  unfold of_int, NilZero.string_of_int, NilZero.string_of_uint.
  destruct (Z.to_int n) as [u|u].
  - destruct u; try apply uint_solid. repeat constructor.
  - cbn. constructor; [done|].
    destruct u; try apply uint_solid. repeat constructor.
Qed.

End StrFacts.

Module QueryFacts.
Import PyStr StrFacts Query Notions.

Lemma strip_idem s : strip (strip s) = strip s.
Proof.
  unfold strip. now rewrite list_ascii_of_string_of_list_ascii, strip_l_idem.
Qed.

Lemma tokens_strip s : tokens (strip s) = tokens s.
Proof.
  unfold tokens, split, lower, strip.
  rewrite !list_ascii_of_string_of_list_ascii.
  now rewrite <- strip_l_lower, split_l_strip.
Qed.

Lemma lower_l_solid w : solid w -> solid (lower_l w).
Proof.
  unfold solid, lower_l. induction 1 as [|c w Hc Hw IH]; cbn; constructor.
  - now rewrite is_space_lower.
  - exact IH.
Qed.

Lemma tokens_add_word s w :
  solid (chars w) -> w <> "" ->
  tokens (strip (s +++ " " +++ w)) = tokens s ++ [lower w].
Proof.
  intros Hw Hne. rewrite tokens_strip. unfold tokens, split, lower.
  rewrite !list_ascii_of_string_of_list_ascii, !chars_app.
  unfold lower_l. rewrite map_app.
  change (map PyChar.lower (chars " " ++ chars w))
    with (" "%char :: lower_l (chars w)).
  rewrite split_l_add_word.
  - now rewrite fmap_app.
  - reflexivity.
  - now apply lower_l_solid.
  - destruct w; [done|discriminate].
Qed.

Lemma any_startswith_app p ts us :
  any_startswith p (ts ++ us) = any_startswith p ts || any_startswith p us.
Proof. apply existsb_app. Qed.

Lemma str_or_empty s : str_or s "" = s.
Proof. now destruct s. Qed.

Lemma newer_than_token_solid d : solid (chars (newer_than_token d)).
Proof.
  unfold newer_than_token. rewrite !chars_app. unfold solid.
  rewrite !Forall_app. repeat split.
  - repeat constructor.
  - apply of_int_solid.
  - repeat constructor.
Qed.

Lemma newer_than_token_lower d :
  startswith (lower (newer_than_token d)) "newer_than:" = true.
Proof.
  unfold startswith, lower, newer_than_token.
  rewrite list_ascii_of_string_of_list_ascii, chars_app.
  unfold lower_l. rewrite map_app. reflexivity.
Qed.

(** What every result of the augmentation looks like. *)
Lemma augmented_shape q d :
  let r := _append_lookback_to_query q d in
  strip r = r
  /\ any_startswith "has:attachment" (tokens r) = true
  /\ ((0 <? d)%Z = true -> any_startswith "newer_than:" (tokens r) = true).
Proof.
  unfold _append_lookback_to_query. rewrite str_or_empty.
  fold (tokens (strip q)). rewrite tokens_strip.
  set (hA := any_startswith "has:attachment" (tokens q)).
  set (hN := any_startswith "newer_than:" (tokens q)).
  change (?s +++ " newer_than:" +++ of_int d +++ "d")
    with (s +++ " " +++ newer_than_token d).
  change (strip q +++ " has:attachment")
    with (strip q +++ " " +++ "has:attachment").
  assert (Hq1 :
    let q1 := if negb hA then strip (strip q +++ " " +++ "has:attachment")
              else strip q in
    strip q1 = q1
    /\ any_startswith "has:attachment" (tokens q1) = true
    /\ (hN = true -> any_startswith "newer_than:" (tokens q1) = true)).
  { destruct hA eqn:EA; cbn [negb].
    - rewrite strip_idem, tokens_strip. auto.
    - rewrite strip_idem, tokens_add_word by (repeat constructor || done).
      rewrite tokens_strip, !any_startswith_app. fold hN.
      repeat split; [apply orb_true_r|]. intros ->. reflexivity. }
  cbv zeta in Hq1.
  set (q1 := if negb hA then _ else _) in *.
  destruct Hq1 as (Hs & HA & HN).
  destruct (truthy (PyInt d) && (0 <? d)%Z && negb hN) eqn:C.
  - rewrite strip_idem, tokens_add_word;
      [|apply newer_than_token_solid|discriminate].
    rewrite !any_startswith_app, HA. repeat split.
    intros _. cbn [any_startswith existsb].
    rewrite newer_than_token_lower. now rewrite orb_true_r.
  - repeat split; [assumption..|]. intros Hd. apply HN.
    rewrite Hd in C. cbn [truthy] in C.
    replace (d =? 0)%Z with false in C
      by (symmetry; apply Z.eqb_neq; apply Z.ltb_lt in Hd; lia).
    cbn in C. now destruct hN.
Qed.

(** C6.  The query augmentation is idempotent: for every query string
    and every lookback value, augmenting an augmented query changes
    nothing. *)
Theorem append_lookback_idempotent (q : string) (d : Z) :
  _append_lookback_to_query (_append_lookback_to_query q d) d
  = _append_lookback_to_query q d.
Proof.
  destruct (augmented_shape q d) as (Hs & HA & HN). cbv zeta in Hs, HA, HN.
  set (r := _append_lookback_to_query q d) in *.
  unfold _append_lookback_to_query.
  rewrite str_or_empty, Hs. fold (tokens r). rewrite HA. cbn [negb].
  destruct (0 <? d)%Z eqn:Hd.
  - rewrite (HN eq_refl). now rewrite andb_false_r.
  - now rewrite andb_false_r.
Qed.

End QueryFacts.

Module TimestampFacts.
Import PyStr StrFacts Builtins Datetime GmailInvoices Notions.












(** The double quotient is what gets formatted: the microseconds of a
    far timestamp show its rounding. *)
Example ms_to_iso8601_samples :
  map _ms_to_iso8601
      [PyInt 1725478294123; PyInt (-1); PyInt (-62135596800000);
       PyInt (-62135596800001); PyInt 253402300799001;
       PyInt 253402300800000; PyNone; PyStr "abc"; PyStr " 12 "]
  = ["2024-09-04T19:31:34.123000Z"; "1969-12-31T23:59:59.999000Z";
     "0001-01-01T00:00:00Z"; ""; "9999-12-31T23:59:59.001007Z"; "";
     ""; ""; "1970-01-01T00:00:00.012000Z"].
Proof. vm_compute. reflexivity. Qed.

End TimestampFacts.

Module SelectorScenarios.
Import Re Selector SelectorFacts Notions.



Lemma choose_total_in_range_witness :
  let atts : list dict := [ ∅; {[ "filename" := PyStr "Invoice.pdf" ]} ] in
  Forall named atts
  /\ exists r, choose_invoice_attachment atts = Ok r
       /\ (r = None <-> atts = [])
       /\ (forall i a, r = Some (i, a) ->
             (1 <= i <= length atts)%nat /\ atts !! (i - 1)%nat = Some a).
Proof.
  cbv zeta.
  match goal with |- ?P /\ _ =>
    assert (H1 : P)
      by (repeat (constructor; [eexists; vm_compute; reflexivity|]);
          constructor)
  end.
  split; [exact H1|].
  exact (choose_total_in_range _ H1).
Defined.

(** Counterexample to C10 as written: a dictionary whose "filename" is
    not a string makes [pat.search] raise. *)
Lemma choose_raises_on_non_string_name :
  let atts : list dict := [ {[ "filename" := PyInt 5 ]} ] in
  choose_invoice_attachment atts = Raise (Exn TypeError None)
  /\ ~ (exists r, choose_invoice_attachment atts = Ok r).
Proof.
  cbv zeta.
  assert (H : choose_invoice_attachment [ {[ "filename" := PyInt 5 ]} ]
              = Raise (Exn TypeError None)) by (vm_compute; reflexivity).
  split; [exact H|]. intros [r Hr]. rewrite H in Hr. discriminate.
Qed.

(** The patterns on some file names, as [re.search] decides them. *)
Example patterns_on_samples :
  map (fun s => map (fun p => search p s) patterns)
      ["pi.pdf"; "api.pdf"; "a pi b"; "pi_1"; "Commercial   Invoice.pdf";
       "commercialinvoice"; "invoices.pdf"; "my-invoice.pdf";
       "xproformainvoicey"; "xproformay"; ""]
  = [[false; false; false; true]; [false; false; false; false];
     [false; false; false; true]; [false; false; false; false];
     [true; true; false; false]; [true; false; false; false];
     [false; false; false; false]; [false; true; false; false];
     [false; false; true; false]; [false; false; false; false];
     [false; false; false; false]].
Proof. vm_compute. reflexivity. Qed.

End SelectorScenarios.

Module NormalizerFacts.
Import Builtins GmailInvoices Samples Notions.
Local Open Scope Z_scope.

Section WithRepr.
Variable py_repr : pyval -> string.







Lemma Forall_concat {A} (P : A -> Prop) (ls : list (list A)) :
  Forall (Forall P) ls -> Forall P (concat ls).
Proof.
  induction 1 as [|l ls Hl Hls IH]; cbn; [constructor|].
  apply Forall_app. now split.
Qed.


End WithRepr.



(** The listing scenario of the repository's test. *)
Example listing_scenario :
  snd (list_invoice_attachments no_repr (gmail_world [message_m1])
                                "in:inbox" 14)
  = Ok [ {[ "message_id" := PyStr "m1";
            "attachment_id" := PyStr "a1";
            "filename" := PyStr "inv.pdf";
            "mime_type" := PyStr "application/pdf";
            "size_bytes" := PyInt 1234;
            "thread_id" := PyStr "";
            "subject" := PyStr "Invoice ABC";
            "from_address" := PyStr "";
            "received_at" := PyStr "2024-09-04T19:31:34Z" ]};
         {[ "message_id" := PyStr "m1";
            "attachment_id" := PyStr "a2";
            "filename" := PyStr "image.png";
            "mime_type" := PyStr "image/png";
            "size_bytes" := PyInt 999;
            "thread_id" := PyStr "";
            "subject" := PyStr "Invoice ABC";
            "from_address" := PyStr "";
            "received_at" := PyStr "2024-09-04T19:31:34Z" ]} ]
  /\ fst (list_invoice_attachments no_repr (gmail_world [message_m1])
                                   "in:inbox" 14)
     = [ EvGetenv "GMAIL_AUTHORIZATION";
         EvListMessages "test-token"
                        "in:inbox has:attachment newer_than:14d" 50 ].
Proof. split; vm_compute; reflexivity. Qed.

End NormalizerFacts.

Module FetcherFacts.
Import Builtins GmailInvoices Samples Notions.

Section WithRepr.
Variable py_repr : pyval -> string.

(** The check rejects a reference as soon as one identifier is falsy
    under both spellings, and performs nothing. *)
Lemma download_rejects_falsy (w : world) (ref : dict) :
  truthy (py_or (dict_get ref "message_id") (dict_get ref "messageId"))
    = false
  \/ truthy (py_or (dict_get ref "attachment_id")
                   (dict_get ref "attachmentId")) = false ->
  download_attachment py_repr w (PyDict ref)
  = ([], Raise missing_identifiers).
Proof.
  intros H. unfold download_attachment.
  destruct H as [-> | ->]; cbn [negb orb]; [reflexivity|].
  now rewrite orb_true_r.
Qed.

(** C9.  [download_attachment] fails with a [ValueError] whenever the
    message identifier or the attachment identifier is absent from
    the reference under both its snake_case and its camelCase key,
    and it has then performed no effect at all: the download helper
    has not been called. *)
Theorem download_requires_identifiers (w : world) (ref : dict) :
  identifier_absent ref "message_id" "messageId"
  \/ identifier_absent ref "attachment_id" "attachmentId" ->
  download_attachment py_repr w (PyDict ref)
  = ([], Raise missing_identifiers).
Proof.
  intros H. apply download_rejects_falsy. unfold py_or, dict_get.
  destruct H as [[-> ->] | [-> ->]]; [left|right]; reflexivity.
Qed.

(** With both identifiers present the helper is called, whichever
    spelling carries them. *)
Lemma download_calls_helper (w : world) (ref : dict) mid aid :
  py_or (dict_get ref "message_id") (dict_get ref "messageId") = mid ->
  py_or (dict_get ref "attachment_id") (dict_get ref "attachmentId") = aid ->
  truthy mid = true -> truthy aid = true ->
  exists name rest,
    fst (download_attachment py_repr w (PyDict ref))
    = EvDownload (py_str py_repr mid) (py_str py_repr aid) name :: rest.
Proof.
  intros Hm Ha Tm Ta. unfold download_attachment.
  rewrite Hm, Ha, Tm, Ta. cbn [negb orb].
  unfold io_bind, perform.
  destruct (gmail_download w _ _ _); cbn; eauto.
Qed.

End WithRepr.

Lemma download_requires_identifiers_witness :
  let ref : dict := {[ "message_id" := PyStr "m1";
                       "filename" := PyStr "inv.pdf" ]} in
  (identifier_absent ref "message_id" "messageId"
   \/ identifier_absent ref "attachment_id" "attachmentId")
  /\ download_attachment no_repr (gmail_world []) (PyDict ref)
     = ([], Raise missing_identifiers).
Proof.
  cbv zeta.
  match goal with |- ?P /\ _ =>
    assert (H1 : P) by (right; split; reflexivity)
  end.
  split; [exact H1|].
  exact (download_requires_identifiers no_repr _ _ H1).
Defined.

(** A reference in camelCase is fetched: helper, read, removal. *)
Example download_camel_case :
  download_attachment no_repr (gmail_world [])
    (PyDict {[ "messageId" := PyStr "m1"; "attachmentId" := PyStr "a1" ]})
  = ([ EvDownload "m1" "a1" (PyStr "gmail_a1");
       EvReadFile "/tmp/test.pdf"; EvRemove "/tmp/test.pdf" ],
     Ok (ascii_bytes "%PDF-1.7")).
Proof. vm_compute. reflexivity. Qed.

End FetcherFacts.

Module UploadFacts.
Import Builtins GmailInvoices Samples Notions.
Local Open Scope Z_scope.

(** The sanity check cannot fail: its own [ValueError] is caught by the
    handler around it. *)
Lemma pdf_sanity_check_swallowed (pdf_bytes : bytes) :
  pdf_sanity_check pdf_bytes = Ok tt.
Proof.
  unfold pdf_sanity_check.
  now destruct (negb (bytes_startswith (firstn 4 pdf_bytes) pdf_magic)).
Qed.

Lemma upload_after_response w pdf_bytes src base resp :
  planner_answers w pdf_bytes base resp ->
  upload_pdf_to_planner w pdf_bytes src
  = (upload_events w pdf_bytes base,
     if (status_code resp <? 200) || (300 <=? status_code resp)
     then raise_msg RuntimeError (http_failure_message resp)
     else insert_report (response_data resp) src).
Proof.
  intros (Hne & Hbase & Hb & Hpost). unfold upload_pdf_to_planner.
  destruct pdf_bytes as [|b pdf]; [done|]. cbn [length Nat.eqb].
  rewrite pdf_sanity_check_swallowed.
  unfold _require_env, getenv_or_empty, upload_events.
  rewrite Hbase. destruct base as [|c base]; [done|].
  cbn [PyStr.nonempty]. cbn [io_lift io_bind perform app].
  rewrite Hpost. cbn [app].
  destruct ((status_code resp <? 200) || (300 <=? status_code resp));
    cbn [io_raise io_lift]; rewrite ?app_nil_r; reflexivity.
Qed.

(** C3.  The claim asks for a [ValueError] on a non-empty payload that
    does not start with "%PDF", before any configuration lookup or
    request.  The code does otherwise: on the payload "hello" it looks up
    its configuration, posts the payload and returns a report. *)
Theorem upload_posts_non_pdf :
  upload_pdf_to_planner (planner_world ok_empty_json) (ascii_bytes "hello")
                        None
  = ([ EvGetenv "PLANNER_API_BASE"; EvGetenv "PLANNER_API_KEY";
       EvPost "http://planner.local/orders/pending/upload-pdf"
              {[ "Authorization" := "Bearer testkey" ]} "invoice.pdf"
              (ascii_bytes "hello") "application/pdf" 30 ],
     Ok {[ "created_order_ids" := PyList [];
           "warnings" := PyList [];
           "errors" := PyList [];
           "source_message_id" := PyStr "";
           "notes" := PyStr "" ]}).
Proof. vm_compute. reflexivity. Qed.

(** ** The failure for a status outside 200..299 *)

Lemma length_of_chars l : String.length (PyStr.of_chars l) = length l.
Proof. induction l as [|c l IH]; cbn; [done|now rewrite IH]. Qed.

Lemma take_length n s : (String.length (PyStr.take n s) <= n)%nat.
Proof.
  unfold PyStr.take. rewrite length_of_chars, length_firstn. lia.
Qed.

Lemma startswith_l_firstn : forall n l,
  PyStr.startswith_l l (firstn n l) = true.
Proof.
  induction n as [|n IH]; intros [|c l]; cbn; try done.
  now rewrite Ascii.eqb_refl, IH.
Qed.

Lemma take_prefix n s : PyStr.startswith s (PyStr.take n s) = true.
Proof.
  unfold PyStr.startswith, PyStr.take.
  rewrite list_ascii_of_string_of_list_ascii. apply startswith_l_firstn.
Qed.

(** C8.  For every response to the upload whose status code lies
    outside 200..299, [upload_pdf_to_planner] fails with a
    [RuntimeError] whose message is "Planner upload failed: HTTP ",
    the status code, ": " and an excerpt of the response body: its
    first 200 characters at most. *)
Theorem upload_fails_outside_2xx w pdf_bytes src base resp :
  planner_answers w pdf_bytes base resp ->
  status_code resp < 200 \/ 300 <= status_code resp ->
  let excerpt := PyStr.take 200 (default "" (text resp)) in
  snd (upload_pdf_to_planner w pdf_bytes src)
  = Raise (Exn RuntimeError
             (Some ("Planner upload failed: HTTP "
                    +++ PyStr.of_int (status_code resp) +++ ": "
                    +++ excerpt)))
  /\ (String.length excerpt <= 200)%nat
  /\ PyStr.startswith (default "" (text resp)) excerpt = true.
Proof.
  intros Hans Hstatus excerpt.
  rewrite (upload_after_response _ _ _ _ _ Hans). cbn [snd].
  replace ((status_code resp <? 200) || (300 <=? status_code resp))
    with true
    by (symmetry; apply orb_true_iff;
        destruct Hstatus; [left; apply Z.ltb_lt|right; apply Z.leb_le];
        assumption).
  split; [|split].
  - unfold raise_msg, http_failure_message.
    now rewrite QueryFacts.str_or_empty.
  - apply take_length.
  - apply take_prefix.
Qed.

Lemma upload_fails_outside_2xx_witness :
  let w := planner_world bad_request in
  let pdf_bytes := ascii_bytes "%PDF-1.4" in
  planner_answers w pdf_bytes "http://planner.local" bad_request
  /\ (status_code bad_request < 200 \/ 300 <= status_code bad_request)
  /\ snd (upload_pdf_to_planner w pdf_bytes None)
     = Raise (Exn RuntimeError
                (Some "Planner upload failed: HTTP 400: Bad request: invalid PDF"))
  /\ PyStr.contains
       "Planner upload failed: HTTP 400: Bad request: invalid PDF"
       "HTTP 400" = true
  /\ PyStr.contains
       "Planner upload failed: HTTP 400: Bad request: invalid PDF"
       "Bad request: invalid PDF" = true.
Proof.
  cbv zeta.
  assert (H1 : planner_answers (planner_world bad_request)
                 (ascii_bytes "%PDF-1.4") "http://planner.local" bad_request)
    by (repeat split; discriminate).
  assert (H2 : status_code bad_request < 200 \/ 300 <= status_code bad_request)
    by (right; cbn; lia).
  split; [exact H1|]. split; [exact H2|].
  split; [|split; vm_compute; reflexivity].
  exact (proj1 (upload_fails_outside_2xx _ _ None _ _ H1 H2)).
Defined.

(** ** The report for a status in 200..299 *)

Lemma insert_report_lookup (data : dict) src key :
  key = "warnings" \/ key = "errors" ->
  exists report, insert_report (PyDict data) src = Ok report
                 /\ report !! key = Some (string_or_list data key).
Proof.
  intros Hkey. unfold insert_report. cbn [as_dict ebind].
  eexists. split; [reflexivity|].
  destruct Hkey as [-> | ->]; reflexivity.
Qed.

Lemma string_or_list_cases (data : dict) key :
  (data !! key = None -> string_or_list data key = PyList [])
  /\ (data !! key = Some PyNone -> string_or_list data key = PyList [])
  /\ (forall s, data !! key = Some (PyStr s) -> s <> "" ->
        string_or_list data key = PyList [PyStr s])
  /\ (data !! key = Some (PyStr "") -> string_or_list data key = PyList [])
  /\ (forall items, data !! key = Some (PyList items) ->
        string_or_list data key = PyList items).
Proof.
  unfold string_or_list, py_or, dict_get.
  repeat match goal with |- _ /\ _ => split end.
  - now intros ->.
  - now intros ->.
  - intros s -> Hs. destruct s; [done|reflexivity].
  - now intros ->.
  - intros items ->. now destruct items.
Qed.

(** C7 (as amended).  In the report of an upload answered with a status
    in 200..299 and a JSON object, "warnings" and "errors" are each
    computed from their own field of the object: an absent (or null)
    field gives the empty sequence, a non-empty string a one-element
    sequence holding it, the empty string the empty sequence, and a
    sequence is used as it is; so for a field that is absent, a string
    or a sequence the report holds a sequence. *)
Theorem report_warnings_errors w pdf_bytes src base resp (data : dict) :
  planner_answers w pdf_bytes base resp ->
  200 <= status_code resp < 300 ->
  resp_json resp = Some (Ok (PyDict data)) ->
  exists report,
    snd (upload_pdf_to_planner w pdf_bytes src) = Ok report
    /\ forall key, key = "warnings" \/ key = "errors" ->
         report !! key = Some (string_or_list data key)
         /\ (data !! key = None -> report !! key = Some (PyList []))
         /\ (data !! key = Some PyNone -> report !! key = Some (PyList []))
         /\ (forall s, data !! key = Some (PyStr s) -> s <> "" ->
               report !! key = Some (PyList [PyStr s]))
         /\ (data !! key = Some (PyStr "") ->
               report !! key = Some (PyList []))
         /\ (forall items, data !! key = Some (PyList items) ->
               report !! key = Some (PyList items)).
Proof.
  intros Hans Hstatus Hjson.
  rewrite (upload_after_response _ _ _ _ _ Hans). cbn [snd].
  replace ((status_code resp <? 200) || (300 <=? status_code resp))
    with false
    by (symmetry; apply orb_false_iff; split;
        [apply Z.ltb_ge|apply Z.leb_gt]; lia).
  unfold response_data. rewrite Hjson.
  destruct (insert_report_lookup data src "warnings" (or_introl eq_refl))
    as (report & Hreport & _).
  exists report. split; [exact Hreport|]. intros key Hkey.
  destruct (insert_report_lookup data src key Hkey) as (report' & Hr' & Hk).
  rewrite Hreport in Hr'. injection Hr' as <-.
  destruct (string_or_list_cases data key) as (C1 & C2 & C3 & C4 & C5).
  rewrite Hk. repeat match goal with |- _ /\ _ => split end.
  - reflexivity.
  - intros H. now rewrite C1.
  - intros H. now rewrite C2.
  - intros s H Hs. now rewrite (C3 s).
  - intros H. now rewrite C4.
  - intros items H. now rewrite (C5 items).
Qed.

Lemma report_warnings_errors_witness :
  let w := planner_world minor_warning in
  let pdf_bytes := ascii_bytes "%PDF-1.4" in
  planner_answers w pdf_bytes "http://planner.local" minor_warning
  /\ 200 <= status_code minor_warning < 300
  /\ exists report,
       snd (upload_pdf_to_planner w pdf_bytes (Some "m1")) = Ok report
       /\ report !! "warnings" = Some (PyList [PyStr "minor"])
       /\ report !! "errors" = Some (PyList []).
Proof.
  cbv zeta.
  assert (H1 : planner_answers (planner_world minor_warning)
                 (ascii_bytes "%PDF-1.4") "http://planner.local"
                 minor_warning)
    by (repeat split; discriminate).
  assert (H2 : 200 <= status_code minor_warning < 300) by (cbn; lia).
  split; [exact H1|]. split; [exact H2|].
  destruct (report_warnings_errors _ _ (Some "m1") _ _ _ H1 H2 eq_refl)
    as (report & Hreport & Hkeys).
  exists report. split; [exact Hreport|]. split.
  - destruct (Hkeys "warnings" (or_introl eq_refl))
      as (_ & _ & _ & Hs & _).
    apply Hs; [reflexivity|discriminate].
  - destruct (Hkeys "errors" (or_intror eq_refl))
      as (_ & _ & _ & _ & _ & Hl).
    apply Hl. reflexivity.
Defined.

(** Counterexample to C7 as written: the empty string yields the empty
    sequence, not a one-element sequence. *)
Lemma empty_string_warning_dropped :
  resp_json empty_warning = Some (Ok (PyDict {[ "warnings" := PyStr "" ]}))
  /\ exists report,
       snd (upload_pdf_to_planner (planner_world empty_warning)
                                  (ascii_bytes "%PDF-1.4") None) = Ok report
       /\ report !! "warnings" = Some (PyList [])
       /\ report !! "warnings" <> Some (PyList [PyStr ""]).
Proof.
  split; [reflexivity|].
  eexists. split; [vm_compute; reflexivity|].
  split; [reflexivity|]. vm_compute. discriminate.
Qed.

(** A field that is neither absent, a string nor a sequence is passed
    through as it is. *)
Example number_warning_passes_through :
  insert_report (PyDict {[ "warnings" := PyInt 5 ]}) None
  = Ok {[ "created_order_ids" := PyList [];
          "warnings" := PyInt 5;
          "errors" := PyList [];
          "source_message_id" := PyStr "";
          "notes" := PyStr "" ]}.
Proof. vm_compute. reflexivity. Qed.

End UploadFacts.

(* ================================================================== *)
(** * Further properties *)
(* ================================================================== *)

Module PatternFacts.
Import Re Selector Notions Shapes SelectorFacts.






Section OneWord.
Variable w : string.
Hypothesis w_nonempty : w <> "".
Hypothesis w_word : Forall (fun c => PyChar.is_word c = true) (PyStr.chars w).




End OneWord.

Section TwoWords.
Variables w1 w2 : string.



End TwoWords.










End PatternFacts.

Module SelectorMore.
Import Re Selector Notions Shapes SelectorFacts.





End SelectorMore.

Module QueryMore.
Import PyStr StrFacts Query Notions Shapes QueryFacts.








Lemma uint_lower u :
  lower_l (chars (NilEmpty.string_of_uint u))
  = chars (NilEmpty.string_of_uint u).
Proof.
  unfold lower_l. induction u; simpl; rewrite ?IHu; reflexivity.
Qed.

Lemma of_int_lower n : lower_l (chars (of_int n)) = chars (of_int n).
Proof.
  unfold of_int, NilZero.string_of_int, NilZero.string_of_uint.
  destruct (Z.to_int n) as [u|u].
  - destruct u; try apply uint_lower. reflexivity.
  - cbn [chars lower_l map]. f_equal.
    destruct u; try apply uint_lower. reflexivity.
Qed.

Lemma newer_than_token_lowered d :
  lower (newer_than_token d) = newer_than_token d.
Proof.
  unfold lower, newer_than_token. rewrite !chars_app.
  unfold lower_l. rewrite !map_app. fold (lower_l (chars (of_int d))).
  rewrite of_int_lower.
  rewrite <- (string_of_list_ascii_of_string ("newer_than:" +++ of_int d +++ "d")).
  now rewrite !chars_app.
Qed.

Lemma lookback_condition d (hN : bool) :
  truthy (PyInt d) && (0 <? d)%Z && negb hN = (0 <? d)%Z && negb hN.
Proof.
  cbn [truthy]. destruct (0 <? d)%Z eqn:Hd; [|now rewrite andb_false_r].
  apply Z.ltb_lt in Hd.
  replace (d =? 0)%Z with false by (symmetry; apply Z.eqb_neq; lia).
  reflexivity.
Qed.

Lemma newer_than_token_nonempty d : newer_than_token d <> "".
Proof. discriminate. Qed.


(** X6.  The tokens of the augmented query are the tokens of the query, in
    their order, followed by the appended filters: nothing is dropped or
    reordered, every result has a token starting with "has:attachment",
    and one starting with "newer_than:" whenever the lookback is
    positive. *)
Theorem append_lookback_tokens (q : string) (d : Z) :
  tokens (_append_lookback_to_query q d)
  = tokens q ++ part_tokens (attachment_part (tokens q))
             ++ part_tokens (lookback_part (tokens q) d)
  /\ any_startswith "has:attachment" (tokens (_append_lookback_to_query q d))
     = true
  /\ ((0 < d)%Z ->
      any_startswith "newer_than:" (tokens (_append_lookback_to_query q d))
      = true).
Proof.
  assert (Htokens :
    tokens (_append_lookback_to_query q d)
    = tokens q ++ part_tokens (attachment_part (tokens q))
               ++ part_tokens (lookback_part (tokens q) d)).
  { unfold _append_lookback_to_query, attachment_part, lookback_part.
    rewrite str_or_empty. fold (tokens (strip q)). rewrite tokens_strip.
    rewrite lookback_condition.
    change (?s +++ " newer_than:" +++ of_int d +++ "d")
      with (s +++ " " +++ newer_than_token d).
    change (strip q +++ " has:attachment")
      with (strip q +++ " " +++ "has:attachment").
    set (hA := any_startswith "has:attachment" (tokens q)).
    set (hN := any_startswith "newer_than:" (tokens q)).
    assert (H1 : tokens (if negb hA
                         then strip (strip q +++ " " +++ "has:attachment")
                         else strip q)
                 = tokens q
                   ++ part_tokens (if hA then "" else "has:attachment")).
    { destruct hA; cbn [negb part_tokens].
      - now rewrite tokens_strip, app_nil_r.
      - rewrite tokens_add_word by (repeat constructor || done).
        now rewrite tokens_strip. }
    destruct ((0 <? d)%Z && negb hN).
    - rewrite tokens_add_word;
        [|apply newer_than_token_solid|apply newer_than_token_nonempty].
      rewrite H1, newer_than_token_lowered, <- app_assoc. reflexivity.
    - rewrite H1. cbn [part_tokens]. now rewrite app_nil_r. }
  split; [exact Htokens|]. rewrite Htokens, !any_startswith_app.
  unfold attachment_part, lookback_part. split.
  - destruct (any_startswith "has:attachment" (tokens q)) eqn:E;
      [reflexivity|]. cbn. reflexivity.
  - intros Hd. apply Z.ltb_lt in Hd. rewrite Hd. cbn [andb].
    destruct (any_startswith "newer_than:" (tokens q)) eqn:E;
      [reflexivity|]. cbn [negb part_tokens].
    assert (Hs : any_startswith "newer_than:" [newer_than_token d] = true).
    { cbn [any_startswith existsb]. rewrite <- newer_than_token_lowered.
      now rewrite newer_than_token_lower. }
    unfold part_tokens. destruct (newer_than_token d) eqn:En.
    + now apply newer_than_token_nonempty in En.
    + rewrite Hs. now rewrite !orb_true_r.
Qed.

Lemma append_lookback_tokens_witness :
  (0 < 14)%Z
  /\ any_startswith "newer_than:"
       (tokens (_append_lookback_to_query "In:Inbox  filename:pdf" 14)) = true.
Proof.
  assert (H : (0 < 14)%Z) by lia. split; [exact H|].
  exact (proj2 (proj2 (append_lookback_tokens "In:Inbox  filename:pdf" 14)) H).
Defined.

End QueryMore.

Module ListingMore.
Import Builtins Query GmailInvoices Notions Shapes QueryFacts NormalizerFacts.

Section WithRepr.
Variable py_repr : pyval -> string.

Lemma map_except_inv {A B} (f : A -> except B) : forall l ys,
  map_except f l = Ok ys -> Forall2 (fun x y => f x = Ok y) l ys.
Proof.
  induction l as [|x l IH]; intros ys H; cbn [map_except] in H.
  - injection H as <-. constructor.
  - destruct (f x) as [y|e] eqn:Hy; [|discriminate]. cbn [ebind] in H.
    destruct (map_except f l) as [ys'|e] eqn:Hl; [|discriminate].
    cbn [ebind] in H. injection H as <-. constructor; [exact Hy|now apply IH].
Qed.

Lemma map_except_ok {A B} (f : A -> except B) (g : A -> B) : forall l,
  Forall (fun x => f x = Ok (g x)) l -> map_except f l = Ok (map g l).
Proof.
  induction 1 as [|x l Hx Hl IH]; [reflexivity|].
  cbn [map_except map]. rewrite Hx. cbn [ebind]. now rewrite IH.
Qed.


(** The two effects of a listing that reaches the helper. *)
Lemma listing_log w query days token :
  set_to w "GMAIL_AUTHORIZATION" token ->
  list_invoice_attachments py_repr w query days
  = ([ EvGetenv "GMAIL_AUTHORIZATION";
       EvListMessages token (_append_lookback_to_query query days) 50 ],
     (msgs <- gmail_list_messages w token
                (_append_lookback_to_query query days) ;;
      refs <- map_except (message_refs py_repr) msgs ;;
      Ok (concat refs))%except).
Proof.
  intros [Htoken Hne]. unfold list_invoice_attachments, _require_env.
  rewrite Htoken. destruct token as [|c token]; [done|].
  cbn [PyStr.nonempty io_bind perform app].
  destruct (gmail_list_messages w _ _) as [msgs|e]; reflexivity.
Qed.

(** X7.  Without GMAIL_AUTHORIZATION, unset or empty, the listing raises
    the [RuntimeError] that names the variable and the Gmail helper is not
    called. *)
Theorem listing_requires_authorization w query days :
  unset w "GMAIL_AUTHORIZATION" ->
  list_invoice_attachments py_repr w query days
  = ([EvGetenv "GMAIL_AUTHORIZATION"],
     Raise (missing_variable "GMAIL_AUTHORIZATION")).
Proof.
  intros [H|H]; unfold list_invoice_attachments, _require_env;
    rewrite H; reflexivity.
Qed.


(** ** Well-formed listings *)





(** ** The shape of every reference *)

Lemma attachment_ref_shaped mid subject received_at (a : pyval) (r : dict) :
  attachment_ref py_repr mid subject received_at a = Ok r -> ref_shaped r.
Proof.
  unfold attachment_ref. destruct (as_dict a) as [d|e]; [|discriminate].
  cbn [ebind]. destruct (size_bytes_of d) as [n|e]; [|discriminate].
  cbn [ebind]. intros [= <-]. unfold ref_shaped.
  split; [|split; [reflexivity|split; [reflexivity|split]]].
  - rewrite !dom_insert_L, dom_singleton_L. unfold ref_keys. set_solver.
  - intros k Hk Hne. unfold ref_keys in Hk. set_unfold in Hk.
    repeat destruct Hk as [Hk|Hk]; subst k; try done; eexists; reflexivity.
  - exists n. reflexivity.
Qed.

Lemma message_refs_shaped (m : pyval) (refs : list dict) :
  message_refs py_repr m = Ok refs -> Forall ref_shaped refs.
Proof.
  unfold message_refs. destruct (as_dict m) as [d|e]; [|discriminate].
  cbn [ebind]. destruct (iterate_attachments _) as [atts|e]; [|discriminate].
  cbn [ebind]. intros H. apply map_except_inv in H.
  induction H as [|a r atts refs Ha H IH]; constructor; [|exact IH].
  exact (attachment_ref_shaped _ _ _ _ _ Ha).
Qed.

Lemma listing_shaped w query days (refs : list dict) :
  snd (list_invoice_attachments py_repr w query days) = Ok refs ->
  Forall ref_shaped refs.
Proof.
  unfold list_invoice_attachments, _require_env.
  destruct (getenv w "GMAIL_AUTHORIZATION") as [token|]; [|discriminate].
  destruct (PyStr.nonempty token); [|discriminate].
  cbn [io_bind perform].
  destruct (gmail_list_messages w _ _) as [msgs|e]; [|discriminate].
  cbn [io_lift snd].
  destruct (map_except (message_refs py_repr) msgs) as [refss|e] eqn:H;
    [|discriminate].
  cbn [ebind]. intros [= <-]. apply map_except_inv in H.
  apply Forall_concat.
  induction H as [|m rs msgs refss Hm H IH]; constructor; [|exact IH].
  exact (message_refs_shaped _ _ Hm).
Qed.

(** X10.  Every reference a listing returns has exactly the nine keys of
    the contract; all its fields are strings but size_bytes, an integer;
    thread_id and from_address are empty strings. *)
Theorem listing_references_shaped w query days (refs : list dict) :
  snd (list_invoice_attachments py_repr w query days) = Ok refs ->
  Forall ref_shaped refs.
Proof. apply listing_shaped. Qed.

(** X11.  Messages without attachments (the key missing, [None] or an
    empty list) contribute nothing: a listing made of such messages, the
    empty listing included, yields the empty list and does not raise. *)
Theorem listing_without_attachments w query days token (msgs : list pyval) :
  set_to w "GMAIL_AUTHORIZATION" token ->
  gmail_list_messages w token (_append_lookback_to_query query days)
  = Ok msgs ->
  Forall without_attachments msgs ->
  snd (list_invoice_attachments py_repr w query days) = Ok [].
Proof.
  intros Hset Hmsgs Hall. rewrite (listing_log _ _ _ _ Hset). cbn [snd].
  rewrite Hmsgs. cbn [ebind].
  rewrite (map_except_ok (message_refs py_repr) (fun _ => [])).
  - cbn [ebind]. f_equal. clear. induction msgs; [reflexivity|exact IHmsgs].
  - eapply Forall_impl; [exact Hall|].
    intros m (d & -> & Hfalsy). unfold message_refs. cbn [as_dict ebind].
    unfold py_or. rewrite Hfalsy. reflexivity.
Qed.


End WithRepr.

Import Samples.

Lemma listing_requires_authorization_witness :
  unset bare_world "GMAIL_AUTHORIZATION"
  /\ list_invoice_attachments no_repr bare_world "in:inbox" 14
     = ([EvGetenv "GMAIL_AUTHORIZATION"],
        Raise (missing_variable "GMAIL_AUTHORIZATION")).
Proof.
  assert (H : unset bare_world "GMAIL_AUTHORIZATION") by (left; reflexivity).
  split; [exact H|].
  exact (listing_requires_authorization no_repr _ _ _ H).
Defined.



Lemma listing_references_shaped_witness :
  snd (list_invoice_attachments no_repr (gmail_world [message_m1])
                                "in:inbox" 14) = Ok refs_m1
  /\ Forall ref_shaped refs_m1.
Proof.
  assert (H : snd (list_invoice_attachments no_repr (gmail_world [message_m1])
                                            "in:inbox" 14) = Ok refs_m1)
    by (vm_compute; reflexivity).
  split; [exact H|].
  exact (listing_references_shaped no_repr _ _ _ _ H).
Defined.

Lemma listing_without_attachments_witness :
  let msgs := [ PyDict {[ "messageId" := PyStr "m1" ]};
                PyDict {[ "messageId" := PyStr "m2";
                          "attachments" := PyNone ]};
                PyDict {[ "attachments" := PyList [] ]} ] in
  let w := gmail_world msgs in
  set_to w "GMAIL_AUTHORIZATION" "test-token"
  /\ Forall without_attachments msgs
  /\ snd (list_invoice_attachments no_repr w "in:inbox" 14) = Ok [].
Proof.
  cbv zeta.
  match goal with |- ?P /\ ?Q /\ _ =>
    assert (H1 : P) by (split; [reflexivity|discriminate]);
    assert (H2 : Q)
      by (repeat (constructor; [eexists; split; reflexivity|]); constructor)
  end.
  split; [exact H1|]. split; [exact H2|].
  exact (listing_without_attachments no_repr _ "in:inbox" 14 _ _
           H1 eq_refl H2).
Defined.


End ListingMore.

Module FetcherMore.
Import Builtins Query GmailInvoices Notions Shapes Samples.

Section WithRepr.
Variable py_repr : pyval -> string.

(** What a call does once both identifiers are there. *)
Lemma download_after_validation w (ref : dict) :
  truthy (ref_message_id ref) = true ->
  truthy (ref_attachment_id ref) = true ->
  let mid := py_str py_repr (ref_message_id ref) in
  let aid := py_str py_repr (ref_attachment_id ref) in
  let hint := py_or (dict_get ref "filename") (PyStr ("gmail_" +++ aid)) in
  download_attachment py_repr w (PyDict ref)
  = match gmail_download w mid aid hint with
    | Raise e => ([EvDownload mid aid hint], Raise e)
    | Ok path =>
        ([EvDownload mid aid hint; EvReadFile path; EvRemove path],
         match read_file w path with
         | Ok data => Ok data
         | Raise e => Raise (read_failure path e)
         end)
    end.
Proof.
  intros Hm Ha. cbv zeta. unfold download_attachment.
  fold (ref_message_id ref). fold (ref_attachment_id ref).
  rewrite Hm, Ha. cbn [negb orb]. unfold io_bind, perform.
  destruct (gmail_download w _ _ _) as [path|e]; reflexivity.
Qed.

(** X13.  The fetcher rejects a reference without any effect exactly when
    it is not a dictionary or one of the two identifiers is missing or
    falsy (None, the empty string, 0) under both of its keys; an
    identifier that is present but empty counts as missing. *)
Theorem download_validation_exact w :
  (forall ref, (forall d, ref <> PyDict d) ->
     download_attachment py_repr w ref = ([], Raise not_a_dict))
  /\ (forall ref : dict,
        download_attachment py_repr w (PyDict ref)
        = ([], Raise missing_identifiers)
        <-> truthy (ref_message_id ref) = false
            \/ truthy (ref_attachment_id ref) = false).
Proof.
  split.
  - intros ref Hnot. destruct ref; try reflexivity. now destruct (Hnot d).
  - intros ref. split.
    + intros H.
      destruct (truthy (ref_message_id ref)) eqn:Hm; [|now left].
      destruct (truthy (ref_attachment_id ref)) eqn:Ha; [|now right].
      rewrite (download_after_validation w ref Hm Ha) in H. cbv zeta in H.
      destruct (gmail_download w _ _ _); discriminate.
    + apply (FetcherFacts.download_rejects_falsy py_repr w ref).
Qed.

(** X14.  Whatever the reference and the world, a call to the fetcher
    either performs nothing and raises a [ValueError]; or calls the download
    helper once, the helper fails, and its exception is raised with nothing
    read or removed; or calls the helper once, reads the file the helper
    reported and attempts to remove that same file, in this order, whether
    the read succeeded (its bytes are returned) or failed (a
    [RuntimeError] naming the path and the cause is raised). *)
Theorem download_effects w (ref : pyval) :
  (fst (download_attachment py_repr w ref) = []
   /\ exists msg, snd (download_attachment py_repr w ref)
                  = Raise (Exn ValueError (Some msg)))
  \/ (exists mid aid hint e,
        gmail_download w mid aid hint = Raise e
        /\ download_attachment py_repr w ref
           = ([EvDownload mid aid hint], Raise e))
  \/ (exists mid aid hint path,
        gmail_download w mid aid hint = Ok path
        /\ download_attachment py_repr w ref
           = ([EvDownload mid aid hint; EvReadFile path; EvRemove path],
              match read_file w path with
              | Ok data => Ok data
              | Raise e => Raise (read_failure path e)
              end)).
Proof.
  destruct ref as [| | | | |d]; try (left; split; [reflexivity|eexists; reflexivity]).
  destruct (truthy (ref_message_id d)) eqn:Hm;
    [destruct (truthy (ref_attachment_id d)) eqn:Ha|].
  - rewrite (download_after_validation w d Hm Ha). cbv zeta.
    destruct (gmail_download w _ _ _) as [path|e] eqn:Hd.
    + right. right. do 4 eexists. split; [exact Hd|reflexivity].
    + right. left. do 4 eexists. split; [exact Hd|reflexivity].
  - left.
    rewrite (FetcherFacts.download_rejects_falsy py_repr w d (or_intror Ha)).
    split; [reflexivity|eexists; reflexivity].
  - left.
    rewrite (FetcherFacts.download_rejects_falsy py_repr w d (or_introl Hm)).
    split; [reflexivity|eexists; reflexivity].
Qed.

Lemma nonempty_truthy s : s <> "" -> truthy (PyStr s) = true.
Proof. now destruct s. Qed.

(** X15.  The snake_case identifiers win over the camelCase ones, which
    are used when the snake_case ones are missing or falsy; string
    identifiers reach the download helper unchanged, together with the
    reference's filename as the proposed file name, or "gmail_" followed by
    the attachment id when the reference has no filename. *)
Theorem download_key_precedence w (ref : dict) (m a : string) :
  m <> "" -> a <> "" ->
  let hint := py_or (dict_get ref "filename") (PyStr ("gmail_" +++ a)) in
  (ref !! "message_id" = Some (PyStr m) ->
   ref !! "attachment_id" = Some (PyStr a) ->
   head (fst (download_attachment py_repr w (PyDict ref)))
   = Some (EvDownload m a hint))
  /\ (truthy (dict_get ref "message_id") = false ->
      truthy (dict_get ref "attachment_id") = false ->
      ref !! "messageId" = Some (PyStr m) ->
      ref !! "attachmentId" = Some (PyStr a) ->
      head (fst (download_attachment py_repr w (PyDict ref)))
      = Some (EvDownload m a hint))
  /\ (truthy (dict_get ref "filename") = false ->
      hint = PyStr ("gmail_" +++ a)).
Proof.
  intros Hm Ha hint.
  assert (Hgo : ref_message_id ref = PyStr m ->
                ref_attachment_id ref = PyStr a ->
                head (fst (download_attachment py_repr w (PyDict ref)))
                = Some (EvDownload m a hint)).
  { intros Em Ea.
    rewrite download_after_validation
      by (rewrite ?Em, ?Ea; now apply nonempty_truthy).
    cbv zeta. rewrite Em, Ea. cbn [py_str].
    destruct (gmail_download w _ _ _); reflexivity. }
  split; [|split].
  - intros Em Ea. apply Hgo; unfold ref_message_id, ref_attachment_id,
      py_or, dict_get; rewrite ?Em, ?Ea;
      [now destruct m|now destruct a].
  - intros Fm Fa Em Ea. apply Hgo; unfold ref_message_id, ref_attachment_id,
      py_or; rewrite ?Fm, ?Fa; unfold dict_get; now rewrite ?Em, ?Ea.
  - intros Ff. unfold hint, py_or. now rewrite Ff.
Qed.

End WithRepr.

Lemma download_validation_exact_witness :
  let ref : dict := {[ "message_id" := PyStr "m1";
                       "attachment_id" := PyStr "" ]} in
  (truthy (ref_message_id ref) = false
   \/ truthy (ref_attachment_id ref) = false)
  /\ download_attachment no_repr (download_world "/tmp/a.pdf" (Ok []))
                         (PyDict ref)
     = ([], Raise missing_identifiers).
Proof.
  cbv zeta.
  match goal with |- ?P /\ _ =>
    assert (H : P) by (right; reflexivity)
  end.
  split; [exact H|].
  exact (proj2 (proj2 (download_validation_exact no_repr _) _) H).
Defined.

Lemma download_key_precedence_witness :
  let ref : dict := {[ "message_id" := PyStr "m1";
                       "messageId" := PyStr "other";
                       "attachment_id" := PyStr "a1" ]} in
  "m1" <> "" /\ "a1" <> ""
  /\ ref !! "message_id" = Some (PyStr "m1")
  /\ ref !! "attachment_id" = Some (PyStr "a1")
  /\ head (fst (download_attachment no_repr
                  (download_world "/tmp/a.pdf" (Ok [])) (PyDict ref)))
     = Some (EvDownload "m1" "a1" (PyStr "gmail_a1")).
Proof.
  cbv zeta.
  assert (H1 : "m1" <> "") by discriminate.
  assert (H2 : "a1" <> "") by discriminate.
  split; [exact H1|]. split; [exact H2|].
  split; [reflexivity|]. split; [reflexivity|].
  exact (proj1 (download_key_precedence no_repr
                  (download_world "/tmp/a.pdf" (Ok []))
                  {[ "message_id" := PyStr "m1";
                     "messageId" := PyStr "other";
                     "attachment_id" := PyStr "a1" ]} "m1" "a1" H1 H2)
               eq_refl eq_refl).
Defined.

End FetcherMore.

Module UploadMore.
Import Builtins Query GmailInvoices Notions Shapes Samples UploadFacts.
Local Open Scope Z_scope.

(** The run of an upload whose payload is not empty and whose base URL is
    configured. *)
Lemma upload_run w pdf_bytes src base :
  pdf_bytes <> [] -> set_to w "PLANNER_API_BASE" base ->
  upload_pdf_to_planner w pdf_bytes src
  = (upload_events w pdf_bytes base,
     match requests_post w (upload_url base)
             (auth_headers (default "" (getenv w "PLANNER_API_KEY")))
             pdf_bytes with
     | PostTimeout => Raise upload_timed_out
     | PostFailure msg => Raise (upload_not_sent msg)
     | PostResponse resp =>
         if (status_code resp <? 200) || (300 <=? status_code resp)
         then raise_msg RuntimeError (http_failure_message resp)
         else insert_report (response_data resp) src
     end).
Proof.
  intros Hne [Hbase Hb]. unfold upload_pdf_to_planner.
  destruct pdf_bytes as [|b pdf]; [done|]. cbn [length Nat.eqb].
  rewrite pdf_sanity_check_swallowed.
  unfold _require_env, getenv_or_empty, upload_events.
  rewrite Hbase. destruct base as [|c base]; [done|].
  cbn [PyStr.nonempty]. cbn [io_lift io_bind perform app].
  destruct (requests_post w _ _ _) as [| msg | resp]; try reflexivity.
  cbn [app].
  destruct ((status_code resp <? 200) || (300 <=? status_code resp));
    cbn [io_raise io_lift]; rewrite ?app_nil_r; reflexivity.
Qed.

(** X16.  An empty payload is rejected with a [ValueError] before
    anything is looked up or sent; with a payload but without
    PLANNER_API_BASE, unset or empty, the call raises the [RuntimeError]
    that names the variable after that single lookup: the API key is not
    read and nothing is posted. *)
Theorem upload_preconditions w src :
  upload_pdf_to_planner w [] src = ([], Raise empty_payload)
  /\ (forall pdf_bytes, pdf_bytes <> [] -> unset w "PLANNER_API_BASE" ->
        upload_pdf_to_planner w pdf_bytes src
        = ([EvGetenv "PLANNER_API_BASE"],
           Raise (missing_variable "PLANNER_API_BASE"))).
Proof.
  split; [reflexivity|]. intros pdf_bytes Hne Hunset.
  unfold upload_pdf_to_planner.
  destruct pdf_bytes as [|b pdf]; [done|]. cbn [length Nat.eqb].
  rewrite pdf_sanity_check_swallowed. unfold _require_env.
  destruct Hunset as [-> | ->]; reflexivity.
Qed.

Lemma upload_preconditions_witness :
  ascii_bytes "%PDF-1.4" <> []
  /\ unset bare_world "PLANNER_API_BASE"
  /\ upload_pdf_to_planner bare_world (ascii_bytes "%PDF-1.4") (Some "m1")
     = ([EvGetenv "PLANNER_API_BASE"],
        Raise (missing_variable "PLANNER_API_BASE")).
Proof.
  assert (H1 : ascii_bytes "%PDF-1.4" <> []) by discriminate.
  assert (H2 : unset bare_world "PLANNER_API_BASE") by (left; reflexivity).
  split; [exact H1|]. split; [exact H2|].
  exact (proj2 (upload_preconditions bare_world (Some "m1")) _ H1 H2).
Defined.

(** X17.  An upload with a payload and a base URL performs exactly three
    effects whatever the outcome: the two lookups and one POST, never a
    second one, to the upload URL, with the payload unchanged under the
    file name invoice.pdf, the type application/pdf and a timeout of 30;
    the request has an Authorization header, "Bearer " and the key,
    exactly when PLANNER_API_KEY is set and not empty, and no other
    header. *)
Theorem upload_single_request w pdf_bytes src base :
  pdf_bytes <> [] -> set_to w "PLANNER_API_BASE" base ->
  exists headers,
    fst (upload_pdf_to_planner w pdf_bytes src)
    = [ EvGetenv "PLANNER_API_BASE"; EvGetenv "PLANNER_API_KEY";
        EvPost (upload_url base) headers "invoice.pdf" pdf_bytes
               "application/pdf" 30 ]
    /\ (unset w "PLANNER_API_KEY" -> headers = ∅)
    /\ (forall key, set_to w "PLANNER_API_KEY" key ->
          headers = {[ "Authorization" := "Bearer " +++ key ]}).
Proof.
  intros Hne Hset. rewrite (upload_run _ _ _ _ Hne Hset). cbn [fst].
  eexists. split; [reflexivity|]. split.
  - intros [-> | ->]; reflexivity.
  - intros key [-> Hkey]. cbn. now destruct key.
Qed.

Lemma upload_single_request_witness :
  let w := planner_world ok_empty_json in
  let pdf_bytes := ascii_bytes "%PDF-1.4" in
  pdf_bytes <> []
  /\ set_to w "PLANNER_API_BASE" "http://planner.local"
  /\ set_to w "PLANNER_API_KEY" "testkey"
  /\ fst (upload_pdf_to_planner w pdf_bytes None)
     = [ EvGetenv "PLANNER_API_BASE"; EvGetenv "PLANNER_API_KEY";
         EvPost "http://planner.local/orders/pending/upload-pdf"
                {[ "Authorization" := "Bearer testkey" ]}
                "invoice.pdf" pdf_bytes "application/pdf" 30 ].
Proof.
  cbv zeta.
  assert (H1 : ascii_bytes "%PDF-1.4" <> []) by discriminate.
  assert (H2 : set_to (planner_world ok_empty_json) "PLANNER_API_BASE"
                 "http://planner.local")
    by (split; [reflexivity|discriminate]).
  assert (H3 : set_to (planner_world ok_empty_json) "PLANNER_API_KEY"
                 "testkey")
    by (split; [reflexivity|discriminate]).
  split; [exact H1|]. split; [exact H2|]. split; [exact H3|].
  destruct (upload_single_request (planner_world ok_empty_json)
              (ascii_bytes "%PDF-1.4") None "http://planner.local" H1 H2)
    as (headers & Hlog & _ & Hkey).
  rewrite Hlog, (Hkey _ H3). reflexivity.
Defined.



(** ** The upload URL *)

Section Rstrip.
Variable drop : ascii -> bool.




End Rstrip.


(** ** The report *)

Lemma not_failed resp :
  succeeded resp ->
  (status_code resp <? 200) || (300 <=? status_code resp) = false.
Proof.
  unfold succeeded. intros H. apply orb_false_iff.
  split; [apply Z.ltb_ge|apply Z.leb_gt]; lia.
Qed.

Lemma str_or_default (src : option string) :
  str_or (default "" src) "" = default "" src.
Proof. apply QueryFacts.str_or_empty. Qed.

(** X20.  A response in 200..299 without a usable body (no [json]
    attribute, or [json()] raising) is no error: the upload returns the
    report with no created ids, no warnings, no errors, empty notes and
    the caller's message id. *)
Theorem upload_tolerates_missing_json w pdf_bytes src base resp :
  planner_answers w pdf_bytes base resp -> succeeded resp ->
  resp_json resp = None \/ (exists e, resp_json resp = Some (Raise e)) ->
  snd (upload_pdf_to_planner w pdf_bytes src) = Ok (empty_report src).
Proof.
  intros Hans Hok Hjson.
  rewrite (upload_after_response _ _ _ _ _ Hans). cbn [snd].
  rewrite (not_failed _ Hok). unfold response_data.
  destruct Hjson as [-> | [e ->]];
    unfold insert_report, empty_report; cbn [as_dict ebind];
    rewrite str_or_default; reflexivity.
Qed.

Lemma upload_tolerates_missing_json_witness :
  let w := planner_world no_json in
  let pdf_bytes := ascii_bytes "%PDF-1.4" in
  planner_answers w pdf_bytes "http://planner.local" no_json
  /\ succeeded no_json
  /\ snd (upload_pdf_to_planner w pdf_bytes (Some "m1"))
     = Ok (empty_report (Some "m1")).
Proof.
  cbv zeta.
  assert (H1 : planner_answers (planner_world no_json)
                 (ascii_bytes "%PDF-1.4") "http://planner.local" no_json)
    by (repeat split; discriminate).
  assert (H2 : succeeded no_json) by (unfold succeeded; cbn; lia).
  split; [exact H1|]. split; [exact H2|].
  exact (upload_tolerates_missing_json _ _ (Some "m1") _ _ H1 H2
           (or_introl eq_refl)).
Defined.

(** X21.  A response in 200..299 whose body parses to something that is
    not an object (a list, a string, a number, null) is not tolerated: the
    lookup of its fields raises an [AttributeError]. *)
Theorem upload_rejects_non_object w pdf_bytes src base resp (body : pyval) :
  planner_answers w pdf_bytes base resp -> succeeded resp ->
  resp_json resp = Some (Ok body) -> (forall d, body <> PyDict d) ->
  snd (upload_pdf_to_planner w pdf_bytes src)
  = Raise (Exn AttributeError None).
Proof.
  intros Hans Hok Hjson Hnot.
  rewrite (upload_after_response _ _ _ _ _ Hans). cbn [snd].
  rewrite (not_failed _ Hok). unfold response_data. rewrite Hjson.
  destruct body; try reflexivity. now destruct (Hnot d).
Qed.

Lemma upload_rejects_non_object_witness :
  let w := planner_world list_json in
  let pdf_bytes := ascii_bytes "%PDF-1.4" in
  planner_answers w pdf_bytes "http://planner.local" list_json
  /\ succeeded list_json
  /\ snd (upload_pdf_to_planner w pdf_bytes None)
     = Raise (Exn AttributeError None).
Proof.
  cbv zeta.
  assert (H1 : planner_answers (planner_world list_json)
                 (ascii_bytes "%PDF-1.4") "http://planner.local" list_json)
    by (repeat split; discriminate).
  assert (H2 : succeeded list_json) by (unfold succeeded; cbn; lia).
  assert (H3 : forall d : dict, PyList [PyInt 1] <> PyDict d)
    by discriminate.
  split; [exact H1|]. split; [exact H2|].
  exact (upload_rejects_non_object _ _ None _ _ _ H1 H2 eq_refl H3).
Defined.

Lemma first_not_none_two x y :
  first_not_none [x; y]
  = if is_none x then (if is_none y then PyList [] else y) else x.
Proof. unfold first_not_none. cbn. now destruct (is_none x), (is_none y). Qed.

Lemma first_truthy_two x y :
  first_truthy [x; y] = py_or (py_or x y) (PyStr "").
Proof.
  unfold first_truthy, py_or. cbn.
  destruct (truthy x) eqn:Hx; cbn; [now rewrite Hx|].
  now destruct (truthy y) eqn:Hy; cbn; rewrite ?Hy.
Qed.

(** X22.  For an object body the report has exactly the five keys of the
    contract.  Its created ids are those of "created_order_ids", or of
    "created" when the former is absent or null, or the empty list when
    both are: a value that is present and not null is kept even when
    empty.  Its notes are the first of "notes" and "detail" that is truthy,
    the empty string when none is: empty notes give way to the detail.
    The caller's message id is echoed, the empty string standing for
    none. *)
Theorem report_fields w pdf_bytes src base resp (data : dict) :
  planner_answers w pdf_bytes base resp -> succeeded resp ->
  resp_json resp = Some (Ok (PyDict data)) ->
  exists report,
    snd (upload_pdf_to_planner w pdf_bytes src) = Ok report
    /\ dom report = report_keys
    /\ report !! "created_order_ids"
       = Some (first_not_none [ dict_get data "created_order_ids";
                                dict_get data "created" ])
    /\ report !! "notes"
       = Some (first_truthy [dict_get data "notes"; dict_get data "detail"])
    /\ report !! "source_message_id" = Some (PyStr (default "" src)).
Proof.
  intros Hans Hok Hjson.
  rewrite (upload_after_response _ _ _ _ _ Hans). cbn [snd].
  rewrite (not_failed _ Hok). unfold response_data. rewrite Hjson.
  unfold insert_report. cbn [as_dict ebind]. eexists.
  split; [reflexivity|]. rewrite str_or_default.
  rewrite first_not_none_two, first_truthy_two.
  split; [|split; [|split]]; try reflexivity.
  destruct (is_none (dict_get data "created_order_ids")) eqn:Hnone;
    [reflexivity|].
  now rewrite Hnone.
Qed.

Lemma report_fields_witness :
  let w := planner_world created_detail in
  let pdf_bytes := ascii_bytes "%PDF-1.4" in
  planner_answers w pdf_bytes "http://planner.local" created_detail
  /\ succeeded created_detail
  /\ exists report,
       snd (upload_pdf_to_planner w pdf_bytes (Some "m1")) = Ok report
       /\ report !! "created_order_ids" = Some (PyList [PyInt 7])
       /\ report !! "notes" = Some (PyStr "queued")
       /\ report !! "source_message_id" = Some (PyStr "m1").
Proof.
  cbv zeta.
  assert (H1 : planner_answers (planner_world created_detail)
                 (ascii_bytes "%PDF-1.4") "http://planner.local"
                 created_detail)
    by (repeat split; discriminate).
  assert (H2 : succeeded created_detail) by (unfold succeeded; cbn; lia).
  split; [exact H1|]. split; [exact H2|].
  destruct (report_fields _ _ (Some "m1") _ _ _ H1 H2 eq_refl)
    as (report & Hrun & _ & Hcreated & Hnotes & Hsrc).
  exists report. split; [exact Hrun|].
  split; [exact Hcreated|]. split; [exact Hnotes|exact Hsrc].
Defined.

End UploadMore.

Module PipelineFacts.
Import Builtins Query GmailInvoices Notions Shapes Samples.

Section WithRepr.
Variable py_repr : pyval -> string.

(** The identifiers and the proposed name that [download_attachment]
    reads from a reference shaped as the normalizer builds it. *)
Lemma shaped_identifiers (r : dict) :
  ref_shaped r ->
  exists m a f : string,
    r !! "message_id" = Some (PyStr m)
    /\ r !! "attachment_id" = Some (PyStr a)
    /\ r !! "filename" = Some (PyStr f)
    /\ ref_message_id r = (if PyStr.nonempty m then PyStr m else PyNone)
    /\ ref_attachment_id r = (if PyStr.nonempty a then PyStr a else PyNone).
Proof.
  intros (Hdom & _ & _ & Hstr & _).
  destruct (Hstr "message_id") as [m Hm]; [set_solver|done|].
  destruct (Hstr "attachment_id") as [a Ha]; [set_solver|done|].
  destruct (Hstr "filename") as [f Hf]; [set_solver|done|].
  assert (Hno : forall k, k ∉ ref_keys -> dict_get r k = PyNone).
  { intros k Hk. unfold dict_get.
    rewrite <- Hdom in Hk. apply not_elem_of_dom in Hk. now rewrite Hk. }
  exists m, a, f. split; [done|]. split; [done|]. split; [done|].
  unfold ref_message_id, ref_attachment_id, py_or.
  rewrite (Hno "messageId"), (Hno "attachmentId")
    by (unfold ref_keys; set_unfold; intros H;
        repeat destruct H as [H|H]; discriminate).
  unfold dict_get. rewrite Hm, Ha.
  split; [now destruct m|now destruct a].
Qed.

(** X23.  The references of a successful listing are what the fetcher
    expects: each one carries string identifiers and a string file name;
    the fetcher rejects it, without any effect, exactly when one of the
    two identifiers is the empty string, and otherwise asks the download
    helper for that very message and attachment, proposing the
    reference's file name, or "gmail_" followed by the attachment
    identifier when the name is empty. *)
Theorem listed_reference_download w w' query days (refs : list dict)
    (r : dict) :
  snd (list_invoice_attachments py_repr w query days) = Ok refs ->
  r ∈ refs ->
  exists m a f : string,
    r !! "message_id" = Some (PyStr m)
    /\ r !! "attachment_id" = Some (PyStr a)
    /\ r !! "filename" = Some (PyStr f)
    /\ (m = "" \/ a = "" <->
        download_attachment py_repr w' (PyDict r)
        = ([], Raise missing_identifiers))
    /\ (m <> "" -> a <> "" ->
        head (fst (download_attachment py_repr w' (PyDict r)))
        = Some (EvDownload m a
                  (PyStr (if PyStr.nonempty f then f else "gmail_" +++ a)))).
Proof.
  intros Hrun Hin.
  pose proof (ListingMore.listing_shaped py_repr _ _ _ _ Hrun) as Hall.
  rewrite Forall_forall in Hall. specialize (Hall r Hin).
  destruct (shaped_identifiers r Hall) as (m & a & f & Hm & Ha & Hf & Hmid & Haid).
  exists m, a, f. split; [done|]. split; [done|]. split; [done|].
  assert (Hgo : m <> "" -> a <> "" ->
    download_attachment py_repr w' (PyDict r)
    = let hint := PyStr (if PyStr.nonempty f then f else "gmail_" +++ a) in
      match gmail_download w' m a hint with
      | Raise e => ([EvDownload m a hint], Raise e)
      | Ok path =>
          ([EvDownload m a hint; EvReadFile path; EvRemove path],
           match read_file w' path with
           | Ok data => Ok data
           | Raise e => Raise (read_failure path e)
           end)
      end).
  { intros Hm' Ha'.
    assert (Em : ref_message_id r = PyStr m)
      by (rewrite Hmid; destruct m; [now destruct Hm'|reflexivity]).
    assert (Ea : ref_attachment_id r = PyStr a)
      by (rewrite Haid; destruct a; [now destruct Ha'|reflexivity]).
    rewrite (FetcherMore.download_after_validation py_repr w' r);
      [|rewrite Em; now apply FetcherMore.nonempty_truthy
       |rewrite Ea; now apply FetcherMore.nonempty_truthy].
    rewrite Em, Ea. cbn [py_str]. unfold py_or, dict_get. rewrite Hf.
    now destruct f. }
  split; [split|].
  - intros Hempty. apply FetcherFacts.download_rejects_falsy.
    fold (ref_message_id r). fold (ref_attachment_id r).
    rewrite Hmid, Haid. destruct Hempty as [-> | ->]; [left|right]; reflexivity.
  - intros Hrej. destruct m as [|c m]; [now left|].
    destruct a as [|d a]; [now right|]. exfalso.
    rewrite Hgo in Hrej by discriminate. cbv zeta in Hrej.
    destruct (gmail_download w' _ _ _); discriminate.
  - intros Hm' Ha'. rewrite (Hgo Hm' Ha'). cbv zeta.
    destruct (gmail_download w' _ _ _); reflexivity.
Qed.

End WithRepr.

Lemma listed_reference_download_witness :
  let w := gmail_world [message_m1] in
  let r : dict :=
    {[ "message_id" := PyStr "m1";
       "attachment_id" := PyStr "a1";
       "filename" := PyStr "inv.pdf";
       "mime_type" := PyStr "application/pdf";
       "size_bytes" := PyInt 1234;
       "thread_id" := PyStr "";
       "subject" := PyStr "Invoice ABC";
       "from_address" := PyStr "";
       "received_at" := PyStr "2024-09-04T19:31:34Z" ]} in
  snd (list_invoice_attachments no_repr w "in:inbox" 14) = Ok refs_m1
  /\ r ∈ refs_m1
  /\ head (fst (download_attachment no_repr w (PyDict r)))
     = Some (EvDownload "m1" "a1" (PyStr "inv.pdf")).
Proof.
  cbv zeta.
  assert (H1 : snd (list_invoice_attachments no_repr (gmail_world [message_m1])
                      "in:inbox" 14) = Ok refs_m1)
    by (vm_compute; reflexivity).
  match goal with |- _ /\ (?r ∈ _) /\ _ =>
    assert (H2 : r ∈ refs_m1) by (unfold refs_m1; constructor)
  end.
  split; [exact H1|]. split; [exact H2|].
  destruct (listed_reference_download no_repr _ (gmail_world [message_m1])
              _ _ _ _ H1 H2)
    as (m & a & f & Hm & Ha & Hf & _ & Hgo).
  injection Hm as <-. injection Ha as <-. injection Hf as <-.
  apply Hgo; discriminate.
Defined.

End PipelineFacts.
